(** * Onboarding bot: validators, progress store and step state machine

    A shallow embedding of [validators.py], [database.py] and the event
    handlers of [main.py], followed by the properties proved about them.

    Python values are modelled as they are at run time: a [str] is a
    sequence of Unicode code points, an [int] is an unbounded integer, and
    a method call on a value of the wrong type raises.  The MongoDB
    collection [db.users] is a finite map from [_id] to documents. *)

From Stdlib Require Import ZArith NArith List String Ascii Bool Lia.
From stdpp Require Import base option list gmap strings fin_maps.
Import ListNotations.

Local Open Scope N_scope.

(** ** Python strings *)

(** A Python [str]: a sequence of code points. *)
Abbreviation str := (list N).

(** The case mapping of the code points outside ASCII comes from the Unicode
    character database, which is not part of the program.  [unicode_lower s i c]
    is the lowercase expansion of the non-ASCII code point [c] found at index
    [i] of [s] (it may be several code points long and, for capital sigma,
    depends on the neighbours). *)
Class UnicodeCase := unicode_lower : str -> nat -> N -> str.

Module PyStr.

Definition chr (a : ascii) : N := N_of_ascii a.

(** A literal of the source, as a [str]. *)
Definition lit (s : string) : str := map N_of_ascii (list_ascii_of_string s).

(** [str.isspace] on one code point (CPython's [_PyUnicode_IsWhitespace]). *)
Definition isspace (c : N) : bool :=
  ((0x09 <=? c) && (c <=? 0x0D)) || ((0x1C <=? c) && (c <=? 0x20))
  || (c =? 0x85) || (c =? 0xA0) || (c =? 0x1680)
  || ((0x2000 <=? c) && (c <=? 0x200A))
  || (c =? 0x2028) || (c =? 0x2029) || (c =? 0x202F) || (c =? 0x205F)
  || (c =? 0x3000).

Fixpoint drop_while (p : N -> bool) (s : str) : str :=
  match s with
  | [] => []
  | c :: s' => if p c then drop_while p s' else s
  end.

Definition rdrop_while (p : N -> bool) (s : str) : str :=
  rev (drop_while p (rev s)).

(** [s.strip()] *)
Definition strip (s : str) : str := rdrop_while isspace (drop_while isspace s).

(** [c in chars] for a single code point. *)
Definition char_in (chars : str) (c : N) : bool := existsb (N.eqb c) chars.

(** [s.lstrip(chars)]: drops every leading code point that occurs in [chars]. *)
Definition lstrip (chars : str) (s : str) : str := drop_while (char_in chars) s.

(** [s.startswith(prefix)] *)
Fixpoint startswith (s prefix : str) : bool :=
  match prefix, s with
  | [], _ => true
  | _ :: _, [] => false
  | p :: prefix', c :: s' => (c =? p) && startswith s' prefix'
  end.

(** [s.endswith(suffix)] *)
Definition endswith (s suffix : str) : bool := startswith (rev s) (rev suffix).

(** [sub in s] *)
Fixpoint contains (s sub : str) : bool :=
  startswith s sub ||
  match s with
  | [] => false
  | _ :: s' => contains s' sub
  end.

Definition str_eqb (a b : str) : bool := bool_decide (a = b).

(** [x in l] for a list of strings. *)
Definition in_list (x : str) (l : list str) : bool := existsb (str_eqb x) l.

Definition ascii_lower (c : N) : N :=
  if (0x41 <=? c) && (c <=? 0x5A) then c + 0x20 else c.

Section Lower.
Context `{UnicodeCase}.

Fixpoint lower_from (whole : str) (i : nat) (s : str) : str :=
  match s with
  | [] => []
  | c :: s' =>
      (if c <? 0x80 then [ascii_lower c] else unicode_lower whole i c)
        ++ lower_from whole (S i) s'
  end.

(** [s.lower()] *)
Definition lower (s : str) : str := lower_from s 0 s.

End Lower.

End PyStr.

(** ** The fragment of [re] the validators use *)

Module Re.

(** A character set such as [[a-fA-F0-9]]: inclusive ranges of code points
    (a single character is a one-point range). *)
Definition charset := list (N * N).

Definition in_charset (cs : charset) (c : N) : bool :=
  existsb (fun r => (fst r <=? c) && (c <=? snd r)) cs.

Inductive quant := One | OneOrMore | Times (n : nat).

Inductive node :=
| Bol                                  (* ^ *)
| Eol                                  (* $ *)
| Chars (cs : charset) (q : quant).    (* a literal or a set, quantified *)

Definition pattern := list node.

(** A continuation receives the position reached and the rest of the input. *)
Definition cont := nat -> str -> bool.

Fixpoint m_times (n : nat) (cs : charset) (k : cont) (pos : nat) (s : str) : bool :=
  match n with
  | O => k pos s
  | S n' =>
      match s with
      | [] => false
      | c :: s' => in_charset cs c && m_times n' cs k (S pos) s'
      end
  end.

(** Greedy [+] with backtracking: take as many as possible, then fewer. *)
Fixpoint m_plus (cs : charset) (k : cont) (pos : nat) (s : str) : bool :=
  match s with
  | [] => false
  | c :: s' => in_charset cs c && (m_plus cs k (S pos) s' || k (S pos) s')
  end.

(** Without [re.MULTILINE], [$] matches at the end of the string and just
    before a newline that is the last character. *)
Definition at_eol (s : str) : bool :=
  match s with
  | [] => true
  | [c] => c =? 0x0A
  | _ => false
  end.

Definition m_node (nd : node) (k : cont) : cont :=
  fun pos s =>
    match nd with
    | Bol => Nat.eqb pos 0 && k pos s
    | Eol => at_eol s && k pos s
    | Chars cs One => m_times 1 cs k pos s
    | Chars cs OneOrMore => m_plus cs k pos s
    | Chars cs (Times n) => m_times n cs k pos s
    end.

Fixpoint m_seq (p : pattern) (k : cont) : cont :=
  match p with
  | [] => k
  | nd :: p' => m_node nd (m_seq p' k)
  end.

(** [re.match(p, s) is not None]: a match of [p] starting at position 0. *)
Definition match_ (p : pattern) (s : str) : bool := m_seq p (fun _ _ => true) O s.

Definition single (a : ascii) : N * N := (PyStr.chr a, PyStr.chr a).
Definition range (a b : ascii) : N * N := (PyStr.chr a, PyStr.chr b).

End Re.

(** ** Run-time values and exceptions *)

Inductive pyval :=
| PyNone
| PyInt (z : Z)
| PyStr (s : str).

Inductive exn :=
| AttributeError
| TypeError
| KeyError
| DuplicateKeyError.

Inductive result (A : Type) :=
| Ok (a : A)
| Raise (e : exn).
Arguments Ok {A} a.
Arguments Raise {A} e.

(** Sequencing: an exception raised by the first computation propagates. *)
Definition bind {A B : Type} (m : result A) (f : A -> result B) : result B :=
  match m with
  | Ok a => f a
  | Raise e => Raise e
  end.

Notation "'do' x <- m ;; k" := (bind m (fun x => k))
  (at level 10, x name, m at level 99, k at level 200).

Module Py.

(** Truth value of an object, as [not x] and [if x] test it. *)
Definition truthy (v : pyval) : bool :=
  match v with
  | PyNone => false
  | PyInt z => negb (z =? 0)%Z
  | PyStr s => match s with [] => false | _ => true end
  end.

Definition strip (v : pyval) : result str :=
  match v with PyStr s => Ok (PyStr.strip s) | _ => Raise AttributeError end.

Definition lstrip (chars : str) (v : pyval) : result str :=
  match v with PyStr s => Ok (PyStr.lstrip chars s) | _ => Raise AttributeError end.

Definition lower `{UnicodeCase} (v : pyval) : result str :=
  match v with PyStr s => Ok (PyStr.lower s) | _ => Raise AttributeError end.

(** [re.match(p, v) is not None]; a non-string subject is a [TypeError]. *)
Definition re_match (p : Re.pattern) (v : pyval) : result bool :=
  match v with PyStr s => Ok (Re.match_ p s) | _ => Raise TypeError end.

(** [v > n] for an integer constant [n]. *)
Definition gt (v : pyval) (n : Z) : result bool :=
  match v with PyInt z => Ok (n <? z)%Z | _ => Raise TypeError end.

End Py.

(** ** validators.py *)

Module Validators.
Import PyStr.

Section WithCase.
Context `{UnicodeCase}.

(** [r'^0x[a-fA-F0-9]{40}$'] *)
Definition bep20_pattern : Re.pattern :=
  [ Re.Bol;
    Re.Chars [Re.single "0"] Re.One;
    Re.Chars [Re.single "x"] Re.One;
    Re.Chars [Re.range "a" "f"; Re.range "A" "F"; Re.range "0" "9"] (Re.Times 40);
    Re.Eol ].

Definition invalid_addresses : list str :=
  [ lit "0x0000000000000000000000000000000000000000";
    lit "0x000000000000000000000000000000000000dead" ].

Definition validate_bep20_address (address : pyval) : result (bool * str) :=
  if negb (Py.truthy address) then
    Ok (false, lit "Address cannot be empty")
  else
    do address <- Py.strip address ;;
    do m <- Py.re_match bep20_pattern (PyStr address) ;;
    if negb m then
      Ok (false, lit "Invalid BEP20 address format. Must be 42 characters starting with 0x")
    else
      do low <- Py.lower (PyStr address) ;;
      if in_list low invalid_addresses then
        Ok (false, lit "Invalid address: Cannot use zero or dead addresses")
      else
        Ok (true, lit "Valid BEP20 address").

(** [r'^[a-zA-Z0-9._]+$'] *)
Definition username_pattern : Re.pattern :=
  [ Re.Bol;
    Re.Chars [Re.range "a" "z"; Re.range "A" "Z"; Re.range "0" "9";
              Re.single "."; Re.single "_"] Re.OneOrMore;
    Re.Eol ].

Definition validate_username (username : pyval) : result (bool * str) :=
  if negb (Py.truthy username) then
    Ok (false, lit "Username cannot be empty")
  else
    do u <- Py.lstrip (lit "@") username ;;
    let username := strip u in
    if (length username <? 3)%nat then
      Ok (false, lit "Username must be at least 3 characters long")
    else if (30 <? length username)%nat then
      Ok (false, lit "Username cannot be longer than 30 characters")
    else
      do m <- Py.re_match username_pattern (PyStr username) ;;
      if negb m then
        Ok (false, lit "Username can only contain letters, numbers, underscores, and dots")
      else if startswith username (lit "_") || startswith username (lit ".") then
        Ok (false, lit "Username cannot start with underscore or dot")
      else if endswith username (lit "_") || endswith username (lit ".") then
        Ok (false, lit "Username cannot end with underscore or dot")
      else if contains username (lit "__") || contains username (lit "..")
              || contains username (lit "._") || contains username (lit "_.") then
        Ok (false, lit "Username cannot contain consecutive special characters")
      else
        Ok (true, lit "Valid username").

Definition max_size : Z := 5 * 1024 * 1024.

Definition valid_extensions : list str :=
  [ lit ".jpg"; lit ".jpeg"; lit ".png"; lit ".gif"; lit ".bmp"; lit ".webp" ].

Definition validate_screenshot (file_size file_name : pyval) : result (bool * str) :=
  do too_big <- Py.gt file_size max_size ;;
  if too_big then
    Ok (false, lit "File size too large. Maximum 5MB allowed")
  else
    do low <- Py.lower file_name ;;
    if negb (existsb (endswith low) valid_extensions) then
      Ok (false, lit "Invalid file type. Please send image files only (jpg, png, gif, etc.)")
    else
      Ok (true, lit "Valid screenshot").

End WithCase.
End Validators.

(** ** database.py *)

Module Database.
Import PyStr.

Local Open Scope Z_scope.

Record screenshot := mkScreenshot {
  file_id : str;
  file_name : str;
  uploaded_at : Z
}.

(** A document of the [users] collection.  [steps_completed] is keyed by the
    step number [n] of its field name [step_<n>]; timestamps are readings of
    [datetime.now()]. *)
Record user := mkUser {
  _id : Z;
  username : str;
  first_name : str;
  current_step : Z;
  steps_completed : gmap Z bool;
  bep20_address : option str;
  social_usernames : gmap string (option str);
  screenshots : list screenshot;
  created_at : Z;
  updated_at : Z
}.

#[global] Instance screenshot_eq_dec : EqDecision screenshot := ltac:(solve_decision).
#[global] Instance user_eq_dec : EqDecision user := ltac:(solve_decision).

(** The collection, keyed by [_id]. *)
Abbreviation users := (gmap Z user).


(** A platform that names one field: [save_social_username] writes to the
    dotted path [social_usernames.<platform>], which addresses the entry
    [platform] of [social_usernames] when [platform] is not empty and has no
    ".", no "$" and no NUL in it. *)
Definition plain_field (platform : string) : bool :=
  match platform with
  | EmptyString => false
  | _ =>
      forallb (fun a => negb (Ascii.eqb a "." || Ascii.eqb a "$" || Ascii.eqb a "000"))
        (list_ascii_of_string platform)
  end.

(** [insert_one(doc)]: a second document with the same [_id] violates the
    unique index and raises. *)
Definition insert_one (doc : user) (db : users) : result users :=
  match db !! _id doc with
  | Some _ => Raise DuplicateKeyError
  | None => Ok (<[_id doc := doc]> db)
  end.

(** [update_one({"_id": user_id}, update)]: applies the update to the matching
    document; the first component is [modified_count], which is 0 when no
    document matches and when the update leaves the document as it was. *)
Definition update_one (user_id : Z) (update : user -> user) (db : users) : nat * users :=
  match db !! user_id with
  | None => (O, db)
  | Some doc =>
      let doc' := update doc in
      if bool_decide (doc' = doc) then (O, db) else (1%nat, <[user_id := doc']> db)
  end.

Definition get_user (user_id : Z) (db : users) : option user := db !! user_id.

Definition new_user (user_id : Z) (username first_name : str) (t_created t_updated : Z) : user :=
  {| _id := user_id;
     username := username;
     first_name := first_name;
     current_step := 1;
     steps_completed := ∅;
     bep20_address := None;
     social_usernames := <["twitter" := None]> (<["instagram" := None]> ∅);
     screenshots := [];
     created_at := t_created;
     updated_at := t_updated |}.

(** The [try]/[except Exception] of every method turns an exception of the
    driver into the answer [False]. *)
Definition create_user (t_created t_updated : Z) (user_id : Z) (username first_name : str)
    (db : users) : bool * users :=
  match insert_one (new_user user_id username first_name t_created t_updated) db with
  | Ok db' => (true, db')
  | Raise _ => (false, db)
  end.

(** [{"$set": {"current_step": ..., "steps_completed.step_<step>": completed,
    "updated_at": now}}] *)
Definition set_step (step : Z) (completed : bool) (now : Z) (u : user) : user :=
  {| _id := _id u;
     username := username u;
     first_name := first_name u;
     current_step := if completed then step + 1 else step;
     steps_completed := <[step := completed]> (steps_completed u);
     bep20_address := bep20_address u;
     social_usernames := social_usernames u;
     screenshots := screenshots u;
     created_at := created_at u;
     updated_at := now |}.

Definition update_user_step (now : Z) (user_id step : Z) (completed : bool)
    (db : users) : bool * users :=
  let '(modified_count, db') := update_one user_id (set_step step completed now) db in
  ((0 <? modified_count)%nat, db').

(** [{"$set": {"social_usernames.<platform>": username, "updated_at": now}}] *)
Definition set_social_username (platform : string) (name : str) (now : Z) (u : user) : user :=
  {| _id := _id u;
     username := username u;
     first_name := first_name u;
     current_step := current_step u;
     steps_completed := steps_completed u;
     bep20_address := bep20_address u;
     social_usernames := <[platform := Some name]> (social_usernames u);
     screenshots := screenshots u;
     created_at := created_at u;
     updated_at := now |}.

Definition save_social_username (now : Z) (user_id : Z) (platform : string) (name : str)
    (db : users) : bool * users :=
  let '(modified_count, db') := update_one user_id (set_social_username platform name now) db in
  ((0 <? modified_count)%nat, db').

(** [{"$set": {"bep20_address": address, "updated_at": now}}] *)
Definition set_bep20_address (address : str) (now : Z) (u : user) : user :=
  {| _id := _id u;
     username := username u;
     first_name := first_name u;
     current_step := current_step u;
     steps_completed := steps_completed u;
     bep20_address := Some address;
     social_usernames := social_usernames u;
     screenshots := screenshots u;
     created_at := created_at u;
     updated_at := now |}.

Definition save_bep20_address (now : Z) (user_id : Z) (address : str)
    (db : users) : bool * users :=
  let '(modified_count, db') := update_one user_id (set_bep20_address address now) db in
  ((0 <? modified_count)%nat, db').

(** [{"$push": {"screenshots": {...}}, "$set": {"updated_at": now}}] *)
Definition push_screenshot (shot : screenshot) (now : Z) (u : user) : user :=
  {| _id := _id u;
     username := username u;
     first_name := first_name u;
     current_step := current_step u;
     steps_completed := steps_completed u;
     bep20_address := bep20_address u;
     social_usernames := social_usernames u;
     screenshots := screenshots u ++ [shot];
     created_at := created_at u;
     updated_at := now |}.

Definition add_screenshot (t_uploaded now : Z) (user_id : Z) (fid fname : str)
    (db : users) : bool * users :=
  let screenshot_data := mkScreenshot fid fname t_uploaded in
  let '(modified_count, db') := update_one user_id (push_screenshot screenshot_data now) db in
  ((0 <? modified_count)%nat, db').

End Database.

(** ** main.py *)

Module Main.
Import PyStr Database.

Local Open Scope Z_scope.

(** [ChatMember.status] *)
Inductive chat_member_status :=
| OWNER
| ADMINISTRATOR
| MEMBER
| RESTRICTED
| LEFT
| BANNED.

Inductive telegram_error :=
| BadRequest
| Forbidden
| OtherException.

(** What [context.bot.get_chat_member] does when it is awaited: it answers
    with a member record or raises. *)
Inductive get_chat_member :=
| Member (status : chat_member_status)
| Fails (e : telegram_error).

Definition check_channel_membership (api : get_chat_member) : bool :=
  match api with
  | Member status =>
      match status with
      | MEMBER | ADMINISTRATOR | OWNER => true
      | _ => false
      end
  | Fails BadRequest | Fails Forbidden => false
  | Fails OtherException => false
  end.

Definition verify_social_follow (platform : string) (name : str) : result bool :=
  do r <- Validators.validate_username (PyStr name) ;;
  Ok (fst r).

(** What a handler sends back.  The texts are the presentation layer's; each
    constructor stands for one [reply_text]/[edit_message_text]/[send_message]
    call, and [Uncaught] for an exception that leaves the handler. *)
Inductive reply :=
| UserNotFound                      (* "User not found. Please use /start command." *)
| UseStartFirst                     (* "Please use /start command first." *)
| DownloadConfirmed
| NotOnStep (k : Z)                 (* "You're not on step 1." / "... the Telegram step." / "... the final step." *)
| VerifyingMembership
| ChannelVerified
| VerificationFailed                (* "... Then click 'Verify I Joined' again" *)
| Instructions (data : str)
| Restarted
| ShowStep (step : Z)
| HandleVerified (platform : string) (name : str)
| ErrorSaving
| HandleNotVerified (platform : string) (name : str)
| InvalidHandle (platform : string) (validation_message : str)
| AddressSaved (address : str)
| InvalidAddress (message : str)
| CurrentlyOnStep (step : Z)        (* "You're currently on step {current_step}" *)
| ResetDone
| NothingToReset
| Welcome
| WelcomeBack (step : Z)
| AlreadyCompleted
| ErrorCreating
| Uncaught (e : exn).

(** [{"$set": {"current_step": 1, "steps_completed": {}, "social_usernames":
    {"twitter": None, "instagram": None}, "bep20_address": None,
    "updated_at": now}}], used by [/reset] and by the restart button. *)
Definition set_reset (now : Z) (u : user) : user :=
  {| _id := _id u;
     username := username u;
     first_name := first_name u;
     current_step := 1;
     steps_completed := ∅;
     bep20_address := None;
     social_usernames := <["twitter" := None]> (<["instagram" := None]> ∅);
     screenshots := screenshots u;
     created_at := created_at u;
     updated_at := now |}.

(** The f-strings of the completion and status texts index
    [bep20_address[:10]] and then read [config.SOCIAL_LINKS['website']], a key
    that [config.py] does not define. *)
Definition summary_error (user_data : option user) : exn :=
  match user_data with
  | None => AttributeError
  | Some u =>
      match bep20_address u with
      | None => TypeError
      | Some _ => KeyError
      end
  end.

Section Handlers.
Context `{UnicodeCase}.

Definition button_handler (user_id : Z) (data : str) (api : get_chat_member) (now : Z)
    (db : users) : users * list reply :=
  match get_user user_id db with
  | None => (db, [UserNotFound])
  | Some user_data =>
      let current_step := current_step user_data in
      if str_eqb data (lit "verify_step_1") then
        if current_step =? 1 then
          let '(_, db) := update_user_step now user_id 1 true db in
          (db, [DownloadConfirmed; ShowStep 2])
        else (db, [NotOnStep 1])
      else if str_eqb data (lit "verify_telegram") then
        if current_step =? 4 then
          let is_member := check_channel_membership api in
          if is_member then
            let '(_, db) := update_user_step now user_id 4 true db in
            (db, [VerifyingMembership; ChannelVerified; ShowStep 5])
          else
            (db, [VerifyingMembership; VerificationFailed; ShowStep 4])
        else (db, [NotOnStep 4])
      else if str_eqb data (lit "complete_process") then
        if current_step =? 6 then
          let '(_, db) := update_user_step now user_id 6 true db in
          (db, [Uncaught (summary_error (get_user user_id db))])
        else (db, [NotOnStep 6])
      else if str_eqb data (lit "twitter_info") || str_eqb data (lit "instagram_info")
              || str_eqb data (lit "bep20_info") then
        (db, [Instructions data])
      else if str_eqb data (lit "restart_process") then
        let '(_, db) := update_one user_id (set_reset now) db in
        (db, [Restarted; ShowStep 1])
      else if str_eqb data (lit "show_status") then
        (db, [Uncaught (summary_error (Some user_data))])
      else if str_eqb data (lit "help") then
        (db, [Uncaught KeyError])
      else (db, [])
  end.

(** The branches of [handle_message] for steps 2 and 3 are the same text with
    the platform and the step number exchanged. *)
Definition handle_social (platform : string) (step : Z) (user_id : Z) (message_text : str)
    (t_save t_step : Z) (db : users) : users * list reply :=
  let name := strip (lstrip (lit "@") message_text) in
  match Validators.validate_username (PyStr name) with
  | Raise e => (db, [Uncaught e])
  | Ok (is_valid, validation_message) =>
      if is_valid then
        match verify_social_follow platform name with
        | Raise e => (db, [Uncaught e])
        | Ok is_follower =>
            if is_follower then
              let '(saved, db) := save_social_username t_save user_id platform name db in
              if saved then
                let '(_, db) := update_user_step t_step user_id step true db in
                (db, [HandleVerified platform name; ShowStep (step + 1)])
              else (db, [ErrorSaving])
            else (db, [HandleNotVerified platform name])
        end
      else (db, [InvalidHandle platform validation_message])
  end.

Definition handle_message (user_id : Z) (text : str) (t_save t_step : Z)
    (db : users) : users * list reply :=
  let message_text := strip text in
  match get_user user_id db with
  | None => (db, [UseStartFirst])
  | Some user_data =>
      let current_step := current_step user_data in
      if current_step =? 2 then
        handle_social "twitter" 2 user_id message_text t_save t_step db
      else if current_step =? 3 then
        handle_social "instagram" 3 user_id message_text t_save t_step db
      else if current_step =? 5 then
        match Validators.validate_bep20_address (PyStr message_text) with
        | Raise e => (db, [Uncaught e])
        | Ok (is_valid, message) =>
            if is_valid then
              let '(saved, db) := save_bep20_address t_save user_id message_text db in
              if saved then
                let '(_, db) := update_user_step t_step user_id 5 true db in
                (db, [AddressSaved message_text; ShowStep 6])
              else (db, [ErrorSaving])
            else (db, [InvalidAddress message])
        end
      else (db, [CurrentlyOnStep current_step])
  end.

Definition reset_command (user_id : Z) (now : Z) (db : users) : users * list reply :=
  let '(modified_count, db) := update_one user_id (set_reset now) db in
  if (0 <? modified_count)%nat then (db, [ResetDone]) else (db, [NothingToReset]).

(** [x or default] for an optional string. *)
Definition or_default (x : option str) (default : str) : str :=
  match x with
  | Some (c :: s) => c :: s
  | _ => default
  end.

Definition start (user_id : Z) (uname fname : option str) (t_created t_updated : Z)
    (db : users) : users * list reply :=
  let username := or_default uname (lit "No username") in
  let first_name := or_default fname (lit "User") in
  match get_user user_id db with
  | None =>
      let '(created, db) := create_user t_created t_updated user_id username first_name db in
      if created then (db, [Welcome; ShowStep 1]) else (db, [ErrorCreating])
  | Some existing_user =>
      let current_step := current_step existing_user in
      if 6 <? current_step then (db, [AlreadyCompleted; Uncaught KeyError])
      else (db, [WelcomeBack current_step; ShowStep current_step])
  end.

(** The updates the transport delivers, each with what the outside world
    answers while it is handled: the clock readings and, for a button, the
    outcome of the membership query. *)
Inductive event :=
| StartCommand (user_id : Z) (uname fname : option str) (t_created t_updated : Z)
| ButtonPress (user_id : Z) (data : str) (api : get_chat_member) (now : Z)
| TextMessage (user_id : Z) (text : str) (t_save t_step : Z)
| ResetCommand (user_id : Z) (now : Z).

Definition handle (ev : event) (db : users) : users * list reply :=
  match ev with
  | StartCommand user_id uname fname t_created t_updated =>
      start user_id uname fname t_created t_updated db
  | ButtonPress user_id data api now => button_handler user_id data api now db
  | TextMessage user_id text t_save t_step => handle_message user_id text t_save t_step db
  | ResetCommand user_id now => reset_command user_id now db
  end.

(** The collections the bot can produce from an empty one. *)
Inductive reachable : users -> Prop :=
| reachable_empty : reachable ∅
| reachable_handle ev db : reachable db -> reachable (fst (handle ev db)).

Definition run (evs : list event) (db : users) : users :=
  fold_left (fun db ev => fst (handle ev db)) evs db.

End Handlers.
End Main.

(** ** The specification's vocabulary *)

Module Spec.
Import PyStr.

(** The reasons a validator gives, named as in the specification. *)
Inductive reason :=
| EmptyInput
| TooShort
| TooLong
| InvalidCharacters
| BoundaryCharacter
| ConsecutiveSpecial
| FormatMismatch
| BlockedAddress.

Inductive verdict :=
| Pass
| Fail (r : reason).

#[global] Instance reason_eq_dec : EqDecision reason := ltac:(solve_decision).
#[global] Instance verdict_eq_dec : EqDecision verdict := ltac:(solve_decision).

Definition passes (v : verdict) : bool :=
  match v with Pass => true | Fail _ => false end.

Definition is_letter (c : N) : bool :=
  ((chr "a" <=? c) && (c <=? chr "z")) || ((chr "A" <=? c) && (c <=? chr "Z")).

Definition is_digit (c : N) : bool := (chr "0" <=? c) && (c <=? chr "9").

(** Underscore or period. *)
Definition special (c : N) : bool := (c =? chr "_") || (c =? chr ".").

(** An ASCII letter, digit, underscore, or period. *)
Definition handle_char (c : N) : bool := is_letter c || is_digit c || special c.

Definition first_special (h : str) : bool :=
  match h with
  | [] => false
  | c :: _ => special c
  end.

Definition last_special (h : str) : bool :=
  match last h with
  | None => false
  | Some c => special c
  end.

(** Some two neighbouring characters are both special, which is to say one of
    the substrings "__", "..", "._", "_." occurs. *)
Fixpoint adjacent_specials (h : str) : bool :=
  match h with
  | a :: (b :: _) as t => (special a && special b) || adjacent_specials t
  | _ => false
  end.

(** The rules on a handle after it has been stripped, in the order of the
    specification: the first violated rule gives the reason. *)
Definition handle_rules (h : str) : verdict :=
  if (length h <? 3)%nat then Fail TooShort
  else if (30 <? length h)%nat then Fail TooLong
  else if negb (forallb handle_char h) then Fail InvalidCharacters
  else if first_special h || last_special h then Fail BoundaryCharacter
  else if adjacent_specials h then Fail ConsecutiveSpecial
  else Pass.

(** Stripping a single leading "@". *)
Definition strip_one_at (s : str) : str :=
  match s with
  | c :: s' => if c =? chr "@" then s' else s
  | [] => []
  end.

(** [validateHandle] as the specification words it: a single "@" and the
    surrounding whitespace are stripped, a blank result is [EmptyInput]. *)
Definition validateHandle (handle : str) : verdict :=
  let h := strip (strip_one_at handle) in
  match h with
  | [] => Fail EmptyInput
  | _ => handle_rules h
  end.

(** What [validate_username] does: every leading "@" is stripped, and only an
    empty argument is [EmptyInput]. *)
Definition handle_verdict (handle : str) : verdict :=
  match handle with
  | [] => Fail EmptyInput
  | _ => handle_rules (strip (lstrip (lit "@") handle))
  end.

(** The reason a message of [validate_username] stands for. *)
Definition username_message (msg : str) : option verdict :=
  if str_eqb msg (lit "Valid username") then Some Pass
  else if str_eqb msg (lit "Username cannot be empty") then Some (Fail EmptyInput)
  else if str_eqb msg (lit "Username must be at least 3 characters long") then Some (Fail TooShort)
  else if str_eqb msg (lit "Username cannot be longer than 30 characters") then Some (Fail TooLong)
  else if str_eqb msg (lit "Username can only contain letters, numbers, underscores, and dots")
    then Some (Fail InvalidCharacters)
  else if str_eqb msg (lit "Username cannot start with underscore or dot")
          || str_eqb msg (lit "Username cannot end with underscore or dot")
    then Some (Fail BoundaryCharacter)
  else if str_eqb msg (lit "Username cannot contain consecutive special characters")
    then Some (Fail ConsecutiveSpecial)
  else None.

Definition is_hex (c : N) : bool :=
  ((chr "a" <=? c) && (c <=? chr "f")) || ((chr "A" <=? c) && (c <=? chr "F")) || is_digit c.

(** Exactly "0x" followed by 40 hexadecimal characters. *)
Definition exact_address (a : str) : bool :=
  match a with
  | c0 :: c1 :: hex =>
      (c0 =? chr "0") && (c1 =? chr "x") && Nat.eqb (length hex) 40 && forallb is_hex hex
  | _ => false
  end.

Definition zero_address : str := lit "0x0000000000000000000000000000000000000000".
Definition dead_address : str := lit "0x000000000000000000000000000000000000dead".

(** The lowercased address is the all-zero or the dead address. *)
Definition blocked (a : str) : bool :=
  let low := map ascii_lower a in
  str_eqb low zero_address || str_eqb low dead_address.

(** Acceptance by [validateAddress] as the specification's property words it:
    the string itself has the format and is not blocked. *)
Definition address_accepted (address : str) : bool :=
  exact_address address && negb (blocked address).

(** What [validate_bep20_address] does: only an empty argument is
    [EmptyInput], and the format is required of the trimmed string. *)
Definition address_verdict (address : str) : verdict :=
  match address with
  | [] => Fail EmptyInput
  | _ =>
      let a := strip address in
      if negb (exact_address a) then Fail FormatMismatch
      else if blocked a then Fail BlockedAddress
      else Pass
  end.

(** The reason a message of [validate_bep20_address] stands for. *)
Definition address_message (msg : str) : option verdict :=
  if str_eqb msg (lit "Valid BEP20 address") then Some Pass
  else if str_eqb msg (lit "Address cannot be empty") then Some (Fail EmptyInput)
  else if str_eqb msg
            (lit "Invalid BEP20 address format. Must be 42 characters starting with 0x")
    then Some (Fail FormatMismatch)
  else if str_eqb msg (lit "Invalid address: Cannot use zero or dead addresses")
    then Some (Fail BlockedAddress)
  else None.

(** The events of the transition table that are addressed to a step: the
    three confirmation buttons, and a text meant as the input of step 2, 3
    or 5. *)
Inductive step_event :=
| ButtonFor (k : Z)
| TextFor (k : Z) (text : str).

Definition addressed_step (e : step_event) : Z :=
  match e with
  | ButtonFor k => k
  | TextFor k _ => k
  end.

(** The callback data of the button of step [k]. *)
Definition button_data (k : Z) : option str :=
  if (k =? 1)%Z then Some (lit "verify_step_1")
  else if (k =? 4)%Z then Some (lit "verify_telegram")
  else if (k =? 6)%Z then Some (lit "complete_process")
  else None.

(** How the transport delivers a step event to the handlers: a button press
    carries its callback data, a text message carries the text alone. *)
Definition deliver (user_id : Z) (e : step_event) (api : Main.get_chat_member)
    (t1 t2 : Z) : option Main.event :=
  match e with
  | ButtonFor k =>
      match button_data k with
      | Some data => Some (Main.ButtonPress user_id data api t1)
      | None => None
      end
  | TextFor _ text => Some (Main.TextMessage user_id text t1 t2)
  end.

(** The membership check reports "member". *)
Definition reports_member (api : Main.get_chat_member) : Prop :=
  api = Main.Member Main.MEMBER \/ api = Main.Member Main.ADMINISTRATOR
  \/ api = Main.Member Main.OWNER.

(** [stepsCompleted[n] == true] implies [currentStep >= n+1]. *)
Definition step_order (u : Database.user) : Prop :=
  forall n : Z, Database.steps_completed u !! n = Some true ->
    (n + 1 <= Database.current_step u)%Z.

End Spec.

(** ** Auxiliary definitions of the proofs *)

(** The continuation that remains once a pattern has reached its final [$]. *)
Definition eol_k : Re.cont := Re.m_node Re.Eol (fun _ _ => true).

(** Every record of the collection respects the step order. *)
Definition all_ordered (db : gmap Z Database.user) : Prop :=
  forall j u, db !! j = Some u -> Spec.step_order u.

(** ** A sample run *)

Module Sample.
Import PyStr Database Main.

Local Open Scope Z_scope.

(** A case table that leaves the code points outside ASCII as they are. *)
Definition ascii_case : UnicodeCase := fun _ _ c => [c].

(** A user starts the bot, confirms the download and sends a Twitter handle. *)
Definition onboarding : list event :=
  [ StartCommand 7 (Some (lit "john")) (Some (lit "John")) 100 100;
    ButtonPress 7 (lit "verify_step_1") (Fails BadRequest) 101;
    TextMessage 7 (lit " @john_crypto ") 102 103 ].

Definition db_step3 : users := @run ascii_case onboarding ∅.

(** The record of that user, now on step 3. *)
Definition john_step3 : user :=
  {| _id := 7;
     username := lit "john";
     first_name := lit "John";
     current_step := 3;
     steps_completed := <[2 := true]> (<[1 := true]> ∅);
     bep20_address := None;
     social_usernames :=
       <["twitter" := Some (lit "john_crypto")]>
         (<["twitter" := None]> (<["instagram" := None]> ∅));
     screenshots := [];
     created_at := 100;
     updated_at := 103 |}.

(** The same user after the Instagram handle, on step 4. *)
Definition db_step4 : users :=
  @run ascii_case [TextMessage 7 (lit "john.crypto") 104 105] db_step3.

Definition john_step4 : user :=
  {| _id := 7;
     username := lit "john";
     first_name := lit "John";
     current_step := 4;
     steps_completed := <[3 := true]> (<[2 := true]> (<[1 := true]> ∅));
     bep20_address := None;
     social_usernames :=
       <["instagram" := Some (lit "john.crypto")]>
         (<["twitter" := Some (lit "john_crypto")]>
            (<["twitter" := None]> (<["instagram" := None]> ∅)));
     screenshots := [];
     created_at := 100;
     updated_at := 105 |}.

End Sample.

(** ** config.py *)

Module Config.
Import PyStr.

(** [d[key]]: a missing key raises [KeyError]. *)
Definition getitem {V : Type} (d : gmap string V) (key : string) : result V :=
  match d !! key with
  | Some v => Ok v
  | None => Raise KeyError
  end.

Definition SOCIAL_LINKS : gmap string str :=
  <["twitter" := lit "https://x.com/minatifi?t=wD6ywZfQ1fRdAvHW7x2Txw&s=08"]>
  (<["instagram" :=
       lit "https://www.instagram.com/minativerse_edtech?igsh=MXE4cWx5ZjZydzUxZg==    "]>
  (<["telegram" := lit "https://t.me/mntchkk"]>
  (<["app_download" :=
       lit "https://play.google.com/store/apps/details?id=com.app.minati_wallet"]> ∅))).

(** [REQUIRED_CHANNELS] of main.py. *)
Definition REQUIRED_CHANNELS : gmap string str :=
  <["main_channel" := lit "@mntchkk"]>
  (<["announcement_channel" := lit "@MinatiVaultAnnouncements"]> ∅).

End Config.

(** ** The screens and commands of main.py that only read *)

Module Screens.
Import PyStr Database Main Config.

Local Open Scope Z_scope.

(** An [InlineKeyboardButton], without its label: it opens a URL or sends its
    callback data to [button_handler]. *)
Inductive button :=
| UrlButton (url : str)
| CallbackButton (callback_data : str).

Abbreviation keyboard := (list (list button)).

(** [f"https://t.me/{REQUIRED_CHANNELS['main_channel'][1:]}"] *)
Definition main_channel_url : result str :=
  do channel <- getitem REQUIRED_CHANNELS "main_channel" ;;
  Ok (lit "https://t.me/" ++ drop 1 channel).

(** What [show_step] and [show_step_callback] send: past step 6 the closing
    text alone, otherwise the text of the step ([known] tells whether
    [config.STEPS] has it, else it is "Invalid step") under a keyboard. *)
Inductive screen :=
| AllCompleted
| StepScreen (step : Z) (known : bool) (kb : keyboard).

Definition step_buttons (step : Z) : result keyboard :=
  if step =? 1 then
    do url <- getitem SOCIAL_LINKS "app_download" ;;
    Ok [[UrlButton url]; [CallbackButton (lit "verify_step_1")]]
  else if step =? 2 then
    do url <- getitem SOCIAL_LINKS "twitter" ;;
    Ok [[UrlButton url]; [CallbackButton (lit "twitter_info")]]
  else if step =? 3 then
    do url <- getitem SOCIAL_LINKS "instagram" ;;
    Ok [[UrlButton url]; [CallbackButton (lit "instagram_info")]]
  else if step =? 4 then
    do url <- main_channel_url ;;
    Ok [[UrlButton url]; [CallbackButton (lit "verify_telegram")]]
  else if step =? 5 then
    Ok [[CallbackButton (lit "bep20_info")]]
  else if step =? 6 then
    Ok [[CallbackButton (lit "complete_process")]]
  else Ok [].

Definition show_step (step : Z) : result screen :=
  if 6 <? step then Ok AllCompleted
  else
    let known := (1 <=? step) && (step <=? 6) in
    do kb <- step_buttons step ;;
    Ok (StepScreen step known (kb ++ [[CallbackButton (lit "help")]])).

(** The same text and keyboard, sent with [send_message]. *)
Definition show_step_callback (step : Z) : result screen := show_step step.

(** The callback data a keyboard can send. *)
Definition callbacks (kb : keyboard) : list str :=
  flat_map (fun row =>
    flat_map (fun b => match b with CallbackButton d => [d] | UrlButton _ => [] end) row) kb.

Inductive telegram_status :=
| NotVerified
| VerifiedMember
| PreviouslyVerified.

(** What [/status] and [/help] answer. *)
Inductive command_reply :=
| PleaseStart                       (* "Please use /start command first." *)
| StatusText (step : Z) (completed : nat) (telegram : telegram_status) (kb : keyboard)
| HelpText (kb : keyboard)
| CommandRaised (e : exn).

Definition status_command (user_id : Z) (api : get_chat_member) (db : users) : command_reply :=
  match get_user user_id db with
  | None => PleaseStart
  | Some user_data =>
      let current_step := current_step user_data in
      let steps_completed := steps_completed user_data in
      let telegram_status :=
        match steps_completed !! 4 with
        | Some true =>
            if check_channel_membership api then VerifiedMember else PreviouslyVerified
        | _ => NotVerified
        end in
      let keyboard :=
        do website <- getitem SOCIAL_LINKS "website" ;;
        do channel <- main_channel_url ;;
        Ok [[UrlButton website]; [UrlButton channel];
            [CallbackButton (lit "restart_process")]] in
      match keyboard with
      | Ok kb => StatusText current_step (size steps_completed) telegram_status kb
      | Raise e => CommandRaised e
      end
  end.

Definition help_command : command_reply :=
  let keyboard :=
    do website <- getitem SOCIAL_LINKS "website" ;;
    do app <- getitem SOCIAL_LINKS "app_download" ;;
    do twitter <- getitem SOCIAL_LINKS "twitter" ;;
    do instagram <- getitem SOCIAL_LINKS "instagram" ;;
    do channel <- main_channel_url ;;
    Ok [[UrlButton website; UrlButton app]; [UrlButton twitter; UrlButton instagram];
        [UrlButton channel]] in
  match keyboard with
  | Ok kb => HelpText kb
  | Raise e => CommandRaised e
  end.

End Screens.

(** ** Statistics of database.py *)

Module Stats.
Import Database.

Local Open Scope Z_scope.

(** The value of [completion_rate]: the integer 0 of the [else] branch, or the
    float [completed_users / total_users * 100], kept as the two integers it
    is computed from. *)
Inductive rate :=
| RateZero
| RatePercent (completed total : nat).

Record stats := mkStats {
  total_users : nat;
  completed_users : nat;
  completion_rate : rate
}.

(** [count_documents(query)] *)
Definition count_documents (query : user -> Prop) `{forall u, Decision (query u)}
    (db : users) : nat :=
  size (filter (fun kv => query (snd kv)) db).

Definition get_user_stats (db : users) : stats :=
  let total_users := count_documents (fun _ => True) db in
  let completed_users := count_documents (fun u => 7 <= current_step u) db in
  {| total_users := total_users;
     completed_users := completed_users;
     completion_rate :=
       if (0 <? total_users)%nat then RatePercent completed_users total_users
       else RateZero |}.

End Stats.

(** ** The effect of an event on one record *)

Module Effect.
Import PyStr Database Main.

Local Open Scope Z_scope.

Section WithCase.
Context `{UnicodeCase}.

(** The user an event comes from. *)
Definition event_user (ev : event) : Z :=
  match ev with
  | StartCommand user_id _ _ _ _ => user_id
  | ButtonPress user_id _ _ _ => user_id
  | TextMessage user_id _ _ _ => user_id
  | ResetCommand user_id _ => user_id
  end.

Definition button_effect (data : str) (api : get_chat_member) (now : Z) (u : user) : user :=
  if str_eqb data (lit "verify_step_1") then
    if current_step u =? 1 then set_step 1 true now u else u
  else if str_eqb data (lit "verify_telegram") then
    if current_step u =? 4 then
      if check_channel_membership api then set_step 4 true now u else u
    else u
  else if str_eqb data (lit "complete_process") then
    if current_step u =? 6 then set_step 6 true now u else u
  else if str_eqb data (lit "twitter_info") || str_eqb data (lit "instagram_info")
          || str_eqb data (lit "bep20_info") then u
  else if str_eqb data (lit "restart_process") then set_reset now u
  else u.

(** A field is saved and, when the save modified the document, the step is
    completed. *)
Definition save_then_step (save : user -> user) (step t_step : Z) (u : user) : user :=
  if bool_decide (save u = u) then u else set_step step true t_step (save u).

Definition social_effect (platform : string) (step : Z) (message_text : str)
    (t_save t_step : Z) (u : user) : user :=
  let name := strip (lstrip (lit "@") message_text) in
  match Validators.validate_username (PyStr name) with
  | Ok (true, _) =>
      match verify_social_follow platform name with
      | Ok true => save_then_step (set_social_username platform name t_save) step t_step u
      | _ => u
      end
  | _ => u
  end.

Definition message_effect (text : str) (t_save t_step : Z) (u : user) : user :=
  let message_text := strip text in
  if current_step u =? 2 then social_effect "twitter" 2 message_text t_save t_step u
  else if current_step u =? 3 then social_effect "instagram" 3 message_text t_save t_step u
  else if current_step u =? 5 then
    match Validators.validate_bep20_address (PyStr message_text) with
    | Ok (true, _) => save_then_step (set_bep20_address message_text t_save) 5 t_step u
    | _ => u
    end
  else u.

(** What an event makes of the record of its user. *)
Definition record_effect (ev : event) (u : user) : user :=
  match ev with
  | StartCommand _ _ _ _ _ => u
  | ButtonPress _ data api now => button_effect data api now u
  | TextMessage _ text t_save t_step => message_effect text t_save t_step u
  | ResetCommand _ now => set_reset now u
  end.

(** The record an event creates for a user that has none. *)
Definition created_by (ev : event) : option user :=
  match ev with
  | StartCommand user_id uname fname t_created t_updated =>
      Some (new_user user_id (or_default uname (lit "No username"))
              (or_default fname (lit "User")) t_created t_updated)
  | _ => None
  end.

(** The events that send a record back to step 1. *)
Definition is_reset (ev : event) : Prop :=
  match ev with
  | ResetCommand _ _ => True
  | ButtonPress _ data _ _ => data = lit "restart_process"
  | _ => False
  end.

End WithCase.

(** The shape of a record the handlers have produced, stored under key [j]. *)
Record well_formed (j : Z) (u : user) : Prop := mkWellFormed {
  wf_id : _id u = j;
  wf_step : 1 <= current_step u <= 7;
  wf_completed : forall n,
    steps_completed u !! n
    = if bool_decide (1 <= n < current_step u) then Some true else None;
  wf_twitter :
    if bool_decide (3 <= current_step u)
    then exists h, social_usernames u !! "twitter"%string = Some (Some h)
                   /\ Spec.handle_verdict h = Spec.Pass
    else social_usernames u !! "twitter"%string = Some None;
  wf_instagram :
    if bool_decide (4 <= current_step u)
    then exists h, social_usernames u !! "instagram"%string = Some (Some h)
                   /\ Spec.handle_verdict h = Spec.Pass
    else social_usernames u !! "instagram"%string = Some None;
  wf_platforms : forall platform : string,
    platform <> "twitter"%string -> platform <> "instagram"%string ->
    social_usernames u !! platform = None;
  wf_address :
    if bool_decide (6 <= current_step u)
    then exists a, bep20_address u = Some a /\ Spec.address_accepted a = true
    else bep20_address u = None;
  wf_screenshots : screenshots u = []
}.

End Effect.

(** ** The sample run, continued to the end *)

Module Course.
Import PyStr Database Main.

Local Open Scope Z_scope.

Definition wallet : str := lit "0x742d35Cc6634C0532925a3b8D4B29E3f5fCffd52".

(** The user of the sample run goes on: Instagram handle, channel
    verification, wallet address, final confirmation. *)
Definition course : list event :=
  Sample.onboarding ++
  [ TextMessage 7 (lit "john.crypto") 104 105;
    ButtonPress 7 (lit "verify_telegram") (Member MEMBER) 106;
    TextMessage 7 wallet 107 108;
    ButtonPress 7 (lit "complete_process") (Member MEMBER) 109 ].

(** The collection after the first [n] events of the course. *)
Definition db_after (n : nat) : users := @run Sample.ascii_case (take n course) ∅.

(** The record of the user at that point. *)
Definition record_after (n : nat) : user :=
  default (new_user 0 [] [] 0 0) (db_after n !! 7).

(** The clock of the witness of the whole course. *)
Definition clock (n : nat) : Z := 100 + Z.of_nat n.

End Course.

(** ** Facts about the string operations *)

Section StringFacts.
Import PyStr.

Lemma drop_while_head p s c t : drop_while p s = c :: t -> p c = false.
Proof.
  induction s as [|a s IH]; simpl; [discriminate|].
  destruct (p a) eqn:Ha; [exact IH|].
  intros [= -> _]. exact Ha.
Qed.

Lemma last_rev_head (l : str) : last (rev l) = head l.
Proof.
  destruct l as [|a l]; [reflexivity|].
  simpl. apply last_snoc.
Qed.

Lemma strip_last_not_space s c : last (strip s) = Some c -> isspace c = false.
Proof.
  unfold strip, rdrop_while. rewrite last_rev_head.
  destruct (drop_while isspace (rev (drop_while isspace s))) as [|a t] eqn:E;
    [discriminate|].
  intros [= ->]. exact (drop_while_head _ _ _ _ E).
Qed.

Lemma strip_no_final_newline s : last (strip s) <> Some 0x0A.
Proof. intros E. apply strip_last_not_space in E. discriminate. Qed.

Lemma startswith_char s c :
  startswith s [c] = match s with [] => false | a :: _ => a =? c end.
Proof. destruct s as [|a s]; cbn [startswith]; [reflexivity|]. destruct s; apply andb_true_r. Qed.

Lemma endswith_char s c :
  endswith s [c] = match last s with None => false | Some a => a =? c end.
Proof.
  unfold endswith. simpl. rewrite startswith_char.
  rewrite <- (rev_involutive s) at 2. rewrite last_rev_head.
  now destruct (rev s).
Qed.

Lemma startswith_app s p : startswith s p = true <-> exists t, s = p ++ t.
Proof.
  revert s. induction p as [|a p IH]; intros s.
  - split; [intros _; now exists s|now destruct s].
  - destruct s as [|c s]; cbn [startswith]; [split; [discriminate|intros [t [=]]]|].
    rewrite andb_true_iff, N.eqb_eq, IH. split.
    + intros [-> [t ->]]. now exists t.
    + intros [t [= -> ->]]. split; [reflexivity|now exists t].
Qed.

Lemma endswith_app s suffix : endswith s suffix = true <-> exists pre, s = pre ++ suffix.
Proof.
  unfold endswith. rewrite startswith_app. split.
  - intros [t E]. exists (rev t).
    rewrite <- (rev_involutive s), E, rev_app_distr. now rewrite rev_involutive.
  - intros [pre ->]. exists (rev pre). apply rev_app_distr.
Qed.

Lemma contains_pair s a b :
  contains s [a; b] =
  match s with
  | x :: (y :: _) as t => ((x =? a) && (y =? b)) || contains t [a; b]
  | _ => false
  end.
Proof.
  destruct s as [|x [|y t]]; cbn [contains startswith]; try reflexivity.
  - now rewrite andb_false_r.
  - destruct t; now rewrite andb_true_r.
Qed.

End StringFacts.

(** ** Facts about the matcher *)

Section ReFacts.
Import PyStr.

Lemma last_cons_cons (a b : N) (l : str) : last (a :: b :: l) = last (b :: l).
Proof. reflexivity. Qed.

Lemma m_times_eol n cs pos s :
  last s <> Some 0x0A ->
  Re.m_times n cs eol_k pos s = Nat.eqb (length s) n && forallb (Re.in_charset cs) s.
Proof.
  revert pos s. induction n as [|n IH]; intros pos s Hs.
  - destruct s as [|c [|d s]]; cbn; try reflexivity.
    rewrite andb_true_r. apply N.eqb_neq. intros ->. now apply Hs.
  - destruct s as [|c s]; [reflexivity|].
    cbn [Re.m_times length forallb Nat.eqb].
    rewrite IH.
    + destruct (Re.in_charset cs c), (Nat.eqb (length s) n); reflexivity.
    + destruct s; [discriminate|exact Hs].
Qed.

Lemma m_plus_eol cs pos s :
  last s <> Some 0x0A ->
  Re.m_plus cs eol_k pos s =
  match s with [] => false | _ => forallb (Re.in_charset cs) s end.
Proof.
  revert pos. induction s as [|c s IH]; intros pos Hs; [reflexivity|].
  cbn [Re.m_plus forallb]. destruct s as [|d s].
  - cbn. now rewrite andb_true_r.
  - rewrite IH by exact Hs.
    assert (eol_k (S pos) (d :: s) = false) as ->.
    { destruct s as [|e s]; cbn; [|reflexivity].
      rewrite andb_true_r. apply N.eqb_neq. intros ->. now apply Hs. }
    now rewrite orb_false_r.
Qed.

Lemma username_class c :
  Re.in_charset
    [Re.range "a" "z"; Re.range "A" "Z"; Re.range "0" "9"; Re.single "."; Re.single "_"] c
  = Spec.handle_char c.
Proof.
  apply eq_true_iff_eq.
  unfold Re.in_charset, Spec.handle_char, Spec.is_letter, Spec.is_digit, Spec.special.
  cbn -[N.leb N.eqb].
  rewrite !orb_true_iff, !andb_true_iff, !N.leb_le, !N.eqb_eq. lia.
Qed.

Lemma hex_class c :
  Re.in_charset [Re.range "a" "f"; Re.range "A" "F"; Re.range "0" "9"] c = Spec.is_hex c.
Proof.
  apply eq_true_iff_eq.
  unfold Re.in_charset, Spec.is_hex, Spec.is_digit.
  cbn -[N.leb N.eqb].
  rewrite !orb_true_iff, !andb_true_iff, !N.leb_le. lia.
Qed.

Lemma forallb_ext_eq (f g : N -> bool) (s : str) :
  (forall c, f c = g c) -> forallb f s = forallb g s.
Proof. intros E. induction s as [|c s IH]; simpl; [reflexivity|]. now rewrite E, IH. Qed.

Lemma match_username_pattern s :
  last s <> Some 0x0A ->
  Re.match_ Validators.username_pattern s =
  match s with [] => false | _ => forallb Spec.handle_char s end.
Proof.
  intros Hs. unfold Re.match_, Validators.username_pattern.
  cbn [Re.m_seq Re.m_node]. change (Nat.eqb 0 0) with true. cbn [andb].
  change (Re.m_node Re.Eol (fun _ _ => true)) with eol_k.
  rewrite m_plus_eol by exact Hs.
  destruct s; [reflexivity|]. apply forallb_ext_eq, username_class.
Qed.

Lemma match_0x_hex n s :
  last s <> Some 0x0A ->
  Re.match_
    [ Re.Bol; Re.Chars [Re.single "0"] Re.One; Re.Chars [Re.single "x"] Re.One;
      Re.Chars [Re.range "a" "f"; Re.range "A" "F"; Re.range "0" "9"] (Re.Times n);
      Re.Eol ] s
  = match s with
    | c0 :: c1 :: hex =>
        (c0 =? chr "0") && (c1 =? chr "x") && Nat.eqb (length hex) n
        && forallb Spec.is_hex hex
    | _ => false
    end.
Proof.
  intros Hs. unfold Re.match_.
  cbn [Re.m_seq Re.m_node]. change (Nat.eqb 0 0) with true. cbn [andb].
  change (Re.m_node Re.Eol (fun _ _ => true)) with eol_k.
  destruct s as [|c0 [|c1 hex]]; cbn [Re.m_times Re.m_node].
  - reflexivity.
  - now rewrite andb_false_r.
  - rewrite m_times_eol.
    + rewrite (forallb_ext_eq _ _ _ hex_class).
      unfold Re.in_charset, Re.single. cbn [existsb fst snd].
      rewrite !orb_false_r.
      assert (forall a b : N, (a <=? b) && (b <=? a) = (b =? a)) as E.
      { intros a b. apply eq_true_iff_eq.
        rewrite andb_true_iff, !N.leb_le, N.eqb_eq. lia. }
      rewrite !E.
      destruct (c0 =? chr "0"), (c1 =? chr "x"), (Nat.eqb (length hex) n); reflexivity.
    + destruct hex; [discriminate|exact Hs].
Qed.

Lemma match_bep20_pattern s :
  last s <> Some 0x0A ->
  Re.match_ Validators.bep20_pattern s = Spec.exact_address s.
Proof. exact (match_0x_hex 40 s). Qed.

End ReFacts.

(** ** The validators *)

Section ValidatorFacts.
Import PyStr Validators.

Lemma contains_specials h :
  contains h (lit "__") || contains h (lit "..")
  || contains h (lit "._") || contains h (lit "_.")
  = Spec.adjacent_specials h.
Proof.
  change (lit "__") with [chr "_"; chr "_"]. change (lit "..") with [chr "."; chr "."].
  change (lit "._") with [chr "."; chr "_"]. change (lit "_.") with [chr "_"; chr "."].
  induction h as [|x t IH]; [reflexivity|].
  destruct t as [|y t]; [now rewrite !(contains_pair [x])|].
  rewrite !(contains_pair (x :: y :: t)). cbv beta iota.
  change (Spec.adjacent_specials (x :: y :: t))
    with (Spec.special x && Spec.special y || Spec.adjacent_specials (y :: t)).
  rewrite <- IH. unfold Spec.special.
  destruct (x =? chr "_"), (x =? chr "."), (y =? chr "_"), (y =? chr ".");
    cbn [andb orb]; try reflexivity;
    repeat match goal with |- context [contains ?a ?b] => destruct (contains a b) end;
    reflexivity.
Qed.

Lemma boundary_first h :
  startswith h (lit "_") || startswith h (lit ".") = Spec.first_special h.
Proof.
  change (lit "_") with [chr "_"]. change (lit ".") with [chr "."].
  rewrite !startswith_char. now destruct h.
Qed.

Lemma boundary_last h :
  endswith h (lit "_") || endswith h (lit ".") = Spec.last_special h.
Proof.
  change (lit "_") with [chr "_"]. change (lit ".") with [chr "."].
  rewrite !endswith_char. unfold Spec.last_special. now destruct (last h).
Qed.

Lemma is_hex_ascii c : Spec.is_hex c = true -> (c <? 0x80) = true.
Proof.
  unfold Spec.is_hex, Spec.is_digit. cbn -[N.leb N.ltb].
  rewrite !orb_true_iff, !andb_true_iff, !N.leb_le, N.ltb_lt. lia.
Qed.

Lemma lower_from_ascii `{UnicodeCase} whole i s :
  forallb (fun c => c <? 0x80) s = true -> lower_from whole i s = map ascii_lower s.
Proof.
  revert i. induction s as [|c s IH]; intros i; [reflexivity|].
  cbn [forallb lower_from map]. rewrite andb_true_iff. intros [-> Hs].
  now rewrite IH.
Qed.

Lemma exact_address_ascii a :
  Spec.exact_address a = true -> forallb (fun c => c <? 0x80) a = true.
Proof.
  destruct a as [|c0 [|c1 hex]]; try discriminate.
  cbn [Spec.exact_address forallb]. rewrite !andb_true_iff, !N.eqb_eq.
  intros [[[-> ->] _] Hhex]. repeat split.
  apply forallb_forall. intros c Hc.
  apply is_hex_ascii. rewrite forallb_forall in Hhex. now apply Hhex.
Qed.

Lemma lower_exact_address `{UnicodeCase} a :
  Spec.exact_address a = true -> lower a = map ascii_lower a.
Proof. intros E. apply lower_from_ascii, exact_address_ascii, E. Qed.

End ValidatorFacts.

Section ValidatorTheorems.
Import PyStr Validators.

(** Acceptance by the rules, rule by rule. *)
Lemma handle_rules_pass (h : str) :
  Spec.handle_rules h = Spec.Pass <->
  (3 <= length h <= 30)%nat
  /\ Forall (fun c => Spec.handle_char c = true) h
  /\ Spec.first_special h = false
  /\ Spec.last_special h = false
  /\ Spec.adjacent_specials h = false.
Proof.
  unfold Spec.handle_rules.
  destruct (length h <? 3)%nat eqn:H3;
    [apply Nat.ltb_lt in H3; split; [discriminate|lia]|apply Nat.ltb_ge in H3].
  destruct (30 <? length h)%nat eqn:H30;
    [apply Nat.ltb_lt in H30; split; [discriminate|lia]|apply Nat.ltb_ge in H30].
  assert (forallb Spec.handle_char h = true
          <-> Forall (fun c => Spec.handle_char c = true) h) as Hall.
  { rewrite List.forallb_forall, List.Forall_forall. reflexivity. }
  destruct (forallb Spec.handle_char h); cbn [negb];
    [|split; [discriminate|intros (_ & Hf & _); apply Hall in Hf; discriminate]].
  destruct (Spec.first_special h); cbn [orb];
    [split; [discriminate|intros (_ & _ & [=] & _)]|].
  destruct (Spec.last_special h);
    [split; [discriminate|intros (_ & _ & _ & [=] & _)]|].
  destruct (Spec.adjacent_specials h);
    [split; [discriminate|intros (_ & _ & _ & _ & [=])]|].
  split; [intros _; repeat split; try assumption; now apply Hall|reflexivity].
Qed.

(** The handles and addresses of the end-to-end scenario. *)
Example scenario_inputs :
  validate_username (PyStr (lit "john_crypto")) = Ok (true, lit "Valid username")
  /\ validate_username (PyStr (lit ".bad_"))
     = Ok (false, lit "Username cannot start with underscore or dot")
  /\ @validate_bep20_address Sample.ascii_case
       (PyStr (lit "0x0000000000000000000000000000000000000000"))
     = Ok (false, lit "Invalid address: Cannot use zero or dead addresses")
  /\ @validate_bep20_address Sample.ascii_case
       (PyStr (lit "0x000000000000000000000000000000000000DEAD"))
     = Ok (false, lit "Invalid address: Cannot use zero or dead addresses")
  /\ @validate_bep20_address Sample.ascii_case
       (PyStr (lit "0X742d35Cc6634C0532925a3b8D4B29E3f5fCffd52"))
     = Ok (false, lit "Invalid BEP20 address format. Must be 42 characters starting with 0x").
Proof. repeat split; vm_compute; reflexivity. Qed.

(** C1 (as amended): [validate_username] strips every leading "@" and then the
    surrounding whitespace; it reports [EmptyInput] only for an empty
    argument, and otherwise the first rule that the stripped handle violates,
    in the order TooShort, TooLong, InvalidCharacters, BoundaryCharacter,
    ConsecutiveSpecial; it accepts exactly when no rule is violated. *)
Theorem validate_username_first_violation (s : str) :
  exists msg,
    validate_username (PyStr s) = Ok (Spec.passes (Spec.handle_verdict s), msg)
    /\ Spec.username_message msg = Some (Spec.handle_verdict s).
Proof.
  destruct s as [|c s].
  { eexists. split; reflexivity. }
  unfold validate_username, Spec.handle_verdict, Spec.handle_rules.
  cbn [Py.truthy negb Py.lstrip bind Py.re_match].
  pose proof (strip_no_final_newline (lstrip (lit "@") (c :: s))) as Hnl.
  set (h := strip (lstrip (lit "@") (c :: s))) in *. clearbody h.
  destruct (length h <? 3)%nat eqn:Hshort.
  { eexists. split; reflexivity. }
  destruct (30 <? length h)%nat.
  { eexists. split; reflexivity. }
  rewrite match_username_pattern by exact Hnl.
  destruct h as [|a h]; [discriminate|].
  destruct (forallb Spec.handle_char (a :: h)); cbn [negb].
  2:{ eexists. split; reflexivity. }
  rewrite <- boundary_first, <- boundary_last, <- contains_specials.
  destruct (startswith (a :: h) (lit "_") || startswith (a :: h) (lit ".")).
  { eexists. split; reflexivity. }
  cbn [orb].
  destruct (endswith (a :: h) (lit "_") || endswith (a :: h) (lit ".")).
  { eexists. split; reflexivity. }
  destruct (contains (a :: h) (lit "__") || contains (a :: h) (lit "..")
            || contains (a :: h) (lit "._") || contains (a :: h) (lit "_.")).
  { eexists. split; reflexivity. }
  eexists. split; reflexivity.
Qed.

(** C1 as stated fails: two leading "@" are both stripped, so "@@abc" is
    accepted where stripping a single "@" leaves an invalid character; and
    "@", blank once stripped, is reported as too short. *)
Lemma validate_username_not_single_at :
  validate_username (PyStr (lit "@@abc")) = Ok (true, lit "Valid username")
  /\ Spec.validateHandle (lit "@@abc") = Spec.Fail Spec.InvalidCharacters
  /\ validate_username (PyStr (lit "@"))
     = Ok (false, lit "Username must be at least 3 characters long")
  /\ Spec.validateHandle (lit "@") = Spec.Fail Spec.EmptyInput.
Proof. repeat split; vm_compute; reflexivity. Qed.

(** C2 (as amended): [validate_bep20_address] reports [EmptyInput] for the
    empty string only; otherwise it trims the surrounding whitespace and
    accepts iff the trimmed string is exactly "0x" followed by 40 hexadecimal
    characters and its lowercasing is neither the all-zero nor the dead
    address, reporting [FormatMismatch] before [BlockedAddress]. *)
Theorem validate_bep20_address_verdict `{UnicodeCase} (s : str) :
  (exists msg,
    validate_bep20_address (PyStr s) = Ok (Spec.passes (Spec.address_verdict s), msg)
    /\ Spec.address_message msg = Some (Spec.address_verdict s))
  /\ Spec.passes (Spec.address_verdict s) = Spec.address_accepted (strip s).
Proof.
  destruct s as [|c s].
  { split; [eexists; split; reflexivity|reflexivity]. }
  unfold validate_bep20_address, Spec.address_verdict, Spec.address_accepted.
  cbn [Py.truthy negb Py.strip bind Py.re_match Py.lower].
  rewrite match_bep20_pattern by apply strip_no_final_newline.
  set (a := strip (c :: s)). clearbody a.
  destruct (Spec.exact_address a) eqn:E; cbn [negb andb].
  2:{ split; [eexists; split; reflexivity|reflexivity]. }
  rewrite (lower_exact_address a E).
  assert (in_list (map ascii_lower a) invalid_addresses = Spec.blocked a) as ->.
  { unfold in_list, Spec.blocked. cbn [existsb invalid_addresses].
    now rewrite orb_false_r. }
  destruct (Spec.blocked a).
  - split; [eexists; split; reflexivity|reflexivity].
  - split; [eexists; split; reflexivity|reflexivity].
Qed.

(** C2 as stated fails: an address with surrounding whitespace is not exactly
    "0x" and 40 hexadecimal characters, and is accepted. *)
Lemma validate_bep20_address_padded :
  @validate_bep20_address Sample.ascii_case
    (PyStr (lit " 0x742d35Cc6634C0532925a3b8D4B29E3f5fCffd52"))
  = Ok (true, lit "Valid BEP20 address")
  /\ Spec.address_accepted (lit " 0x742d35Cc6634C0532925a3b8D4B29E3f5fCffd52") = false.
Proof. split; vm_compute; reflexivity. Qed.

End ValidatorTheorems.

Section ValidatorTotality.
Import PyStr Validators.
Context `{UnicodeCase}.

Local Ltac branches :=
  repeat match goal with
         | |- context [if ?b then _ else _] => destruct b
         end;
  eauto.

Lemma validate_bep20_address_returns (s : str) :
  exists b msg, validate_bep20_address (PyStr s) = Ok (b, msg).
Proof.
  unfold validate_bep20_address.
  destruct s; cbn [Py.truthy negb Py.strip Py.re_match Py.lower bind]; branches.
Qed.

Lemma validate_username_returns (s : str) :
  exists b msg, validate_username (PyStr s) = Ok (b, msg).
Proof.
  unfold validate_username.
  destruct s; cbn [Py.truthy negb Py.lstrip Py.re_match bind]; branches.
Qed.

Lemma validate_screenshot_returns (size : Z) (name : str) :
  exists b msg, validate_screenshot (PyInt size) (PyStr name) = Ok (b, msg).
Proof.
  unfold validate_screenshot. cbn [Py.gt Py.lower bind]. branches.
Qed.

(** C9: on their declared domains the three validators return a pair of a
    boolean and a message and raise nothing: [validate_bep20_address] and
    [validate_username] on every string, [validate_screenshot] on every
    integer size and string file name. *)
Theorem validators_total :
  (forall s : str, exists b msg, validate_bep20_address (PyStr s) = Ok (b, msg))
  /\ (forall s : str, exists b msg, validate_username (PyStr s) = Ok (b, msg))
  /\ (forall (size : Z) (name : str),
        exists b msg, validate_screenshot (PyInt size) (PyStr name) = Ok (b, msg)).
Proof.
  split; [|split].
  - exact validate_bep20_address_returns.
  - exact validate_username_returns.
  - exact validate_screenshot_returns.
Qed.

(** Outside the declared domain the validators do raise. *)
Example validators_raise_on_other_types :
  validate_username (PyInt 3) = Raise AttributeError
  /\ validate_screenshot (PyInt 0) PyNone = Raise AttributeError
  /\ validate_screenshot PyNone (PyStr (lit "a.png")) = Raise TypeError.
Proof. repeat split. Qed.

(** C10: for every size up to 5,242,880, zero and negative sizes included, the
    size check passes and [validate_screenshot] accepts exactly when the
    lowercased file name ends with one of .jpg, .jpeg, .png, .gif, .bmp,
    .webp; the file name ".jpg" is accepted. *)
Theorem validate_screenshot_no_lower_bound (size : Z) (name : str) :
  (size <= 5242880)%Z ->
  (exists b msg,
     validate_screenshot (PyInt size) (PyStr name) = Ok (b, msg)
     /\ (b = true <->
         exists ext pre,
           In ext [lit ".jpg"; lit ".jpeg"; lit ".png"; lit ".gif"; lit ".bmp"; lit ".webp"]
           /\ lower name = pre ++ ext))
  /\ validate_screenshot (PyInt size) (PyStr (lit ".jpg")) = Ok (true, lit "Valid screenshot").
Proof.
  intros Hsize.
  assert ((max_size <? size)%Z = false) as Hgt.
  { apply Z.ltb_ge. unfold max_size. lia. }
  unfold validate_screenshot. cbn [Py.gt Py.lower bind]. rewrite Hgt.
  split; [|reflexivity].
  destruct (existsb (endswith (lower name)) valid_extensions) eqn:E; cbn [negb].
  - eexists _, _. split; [reflexivity|]. split; [intros _|reflexivity].
    apply existsb_exists in E as [ext [Hin Hend]].
    apply endswith_app in Hend as [pre Hpre]. now exists ext, pre.
  - eexists _, _. split; [reflexivity|]. split; [discriminate|].
    intros [ext [pre [Hin Hpre]]].
    assert (existsb (endswith (lower name)) valid_extensions = true) as E'.
    { apply existsb_exists. exists ext. split; [exact Hin|].
      apply endswith_app. now exists pre. }
    congruence.
Qed.

End ValidatorTotality.

(** ** The progress store *)

Section StoreFacts.
Import PyStr Database.
Local Open Scope Z_scope.

Lemma update_one_lookup (user_id : Z) (f : user -> user) (db : users) (j : Z) :
  snd (update_one user_id f db) !! j
  = if decide (j = user_id) then f <$> (db !! user_id) else db !! j.
Proof.
  unfold update_one. destruct (db !! user_id) as [doc|] eqn:E; cbn [snd].
  - case_bool_decide as Hsame; cbn [snd]; case_decide as Hj; subst.
    + rewrite E. cbn. now rewrite Hsame.
    + reflexivity.
    + now rewrite lookup_insert_eq.
    + now rewrite lookup_insert_ne.
  - case_decide; subst; [now rewrite E|reflexivity].
Qed.

Lemma update_one_missing (user_id : Z) (f : user -> user) (db : users) :
  db !! user_id = None -> update_one user_id f db = (O, db).
Proof. intros E. unfold update_one. now rewrite E. Qed.

Lemma update_user_step_db now user_id step completed (db : users) :
  snd (update_user_step now user_id step completed db)
  = snd (update_one user_id (set_step step completed now) db).
Proof. unfold update_user_step. now destruct (update_one _ _ _). Qed.

Lemma save_social_username_db now user_id platform name (db : users) :
  save_social_username now user_id platform name db
  = ((0 <? fst (update_one user_id (set_social_username platform name now) db))%nat,
     snd (update_one user_id (set_social_username platform name now) db)).
Proof. unfold save_social_username. now destruct (update_one _ _ _). Qed.

Lemma save_bep20_address_db now user_id address (db : users) :
  save_bep20_address now user_id address db
  = ((0 <? fst (update_one user_id (set_bep20_address address now) db))%nat,
     snd (update_one user_id (set_bep20_address address now) db)).
Proof. unfold save_bep20_address. now destruct (update_one _ _ _). Qed.

Lemma set_step_twice step completed t1 t2 (u : user) :
  set_step step completed t2 (set_step step completed t1 u) = set_step step completed t2 u.
Proof. unfold set_step. cbn. now rewrite insert_insert_eq. Qed.

(** C7: re-invoking [update_user_step] with the same step and flag leaves the
    store as a single invocation leaves it, and the record's [current_step]
    and [steps_completed] as the first invocation left them. *)
Theorem update_user_step_idempotent (db : users) (user_id step : Z) (completed : bool)
    (t1 t2 : Z) :
  let once := snd (update_user_step t1 user_id step completed db) in
  let twice := snd (update_user_step t2 user_id step completed once) in
  twice = snd (update_user_step t2 user_id step completed db)
  /\ current_step <$> (twice !! user_id) = current_step <$> (once !! user_id)
  /\ steps_completed <$> (twice !! user_id) = steps_completed <$> (once !! user_id).
Proof.
  cbv zeta. rewrite !update_user_step_db. split; [|split].
  - apply map_eq. intros j. rewrite !update_one_lookup.
    case_decide; [|reflexivity].
    rewrite decide_True by reflexivity.
    destruct (db !! user_id); cbn; [|reflexivity].
    now rewrite set_step_twice.
  - rewrite !update_one_lookup, !decide_True by reflexivity.
    now destruct (db !! user_id).
  - rewrite !update_one_lookup, !decide_True by reflexivity.
    destruct (db !! user_id); cbn; [|reflexivity].
    now rewrite insert_insert_eq.
Qed.



End StoreFacts.

(** ** The event handlers *)

Section HandlerFacts.
Import PyStr Database Main.
Context `{UnicodeCase}.
Local Open Scope Z_scope.

(** Evaluates the comparisons of callback data between literals. *)
Local Ltac literal_data :=
  repeat match goal with
         | |- context [str_eqb (lit ?a) (lit ?b)] =>
             let v := eval vm_compute in (str_eqb (lit a) (lit b)) in
             change (str_eqb (lit a) (lit b)) with v
         end;
  cbn [orb].

Lemma restart_process_db user_id api now (db : users) (u : user) :
  db !! user_id = Some u ->
  fst (button_handler user_id (lit "restart_process") api now db)
  = snd (update_one user_id (set_reset now) db).
Proof.
  intros E. unfold button_handler, get_user. rewrite E. literal_data.
  now destruct (update_one _ _ _).
Qed.

Lemma reset_command_db user_id now (db : users) :
  fst (reset_command user_id now db) = snd (update_one user_id (set_reset now) db).
Proof.
  unfold reset_command. destruct (update_one _ _ _) as [m db'].
  now destruct (0 <? m)%nat.
Qed.

(** C6: [/reset] and the restart button leave the record with [current_step]
    1, empty [steps_completed], both social handles null and no wallet
    address, and leave its screenshots, id, names and creation time, and
    every other record, as they were. *)
Theorem reset_clears_progress (db : users) (user_id now : Z) (api : get_chat_member)
    (u : user) :
  db !! user_id = Some u ->
  exists u',
    fst (reset_command user_id now db) !! user_id = Some u'
    /\ fst (button_handler user_id (lit "restart_process") api now db) !! user_id = Some u'
    /\ current_step u' = 1
    /\ steps_completed u' = ∅
    /\ social_usernames u' = <["twitter"%string := None]> (<["instagram"%string := None]> ∅)
    /\ bep20_address u' = None
    /\ screenshots u' = screenshots u
    /\ _id u' = _id u /\ username u' = username u /\ first_name u' = first_name u
    /\ created_at u' = created_at u
    /\ (forall j, j <> user_id ->
          fst (reset_command user_id now db) !! j = db !! j
          /\ fst (button_handler user_id (lit "restart_process") api now db) !! j = db !! j).
Proof.
  intros E. exists (set_reset now u).
  rewrite (restart_process_db _ _ _ _ _ E), reset_command_db.
  rewrite update_one_lookup, decide_True, E by reflexivity.
  repeat split; rewrite update_one_lookup; now rewrite decide_False.
Qed.

(** C8: at step 4 a membership query that raises is handled exactly as the
    answer "left": the store is unchanged, the user is told to verify again
    and is shown step 4; the record moves to step 5 only when the check
    reports a member, administrator or owner. *)
Theorem membership_fails_closed (db : users) (user_id now : Z) (u : user)
    (e : telegram_error) :
  db !! user_id = Some u ->
  current_step u = 4 ->
  button_handler user_id (lit "verify_telegram") (Fails e) now db
  = button_handler user_id (lit "verify_telegram") (Member LEFT) now db
  /\ button_handler user_id (lit "verify_telegram") (Fails e) now db
     = (db, [VerifyingMembership; VerificationFailed; ShowStep 4])
  /\ (forall api,
        current_step <$> (fst (button_handler user_id (lit "verify_telegram") api now db)
                            !! user_id) = Some 5
        <-> Spec.reports_member api).
Proof.
  intros E Hstep.
  assert (forall api,
    button_handler user_id (lit "verify_telegram") api now db
    = if check_channel_membership api
      then (snd (update_one user_id (set_step 4 true now) db),
            [VerifyingMembership; ChannelVerified; ShowStep 5])
      else (db, [VerifyingMembership; VerificationFailed; ShowStep 4])) as Hbutton.
  { intros api. unfold button_handler, get_user. rewrite E, Hstep. literal_data.
    change (4 =? 4) with true. cbv iota.
    destruct (check_channel_membership api); [|reflexivity].
    rewrite <- update_user_step_db. now destruct (update_user_step _ _ _ _ _). }
  split; [|split].
  - rewrite !Hbutton. now destruct e.
  - rewrite Hbutton. now destruct e.
  - intros api. rewrite Hbutton. unfold Spec.reports_member.
    destruct api as [[]|[]]; cbn [check_channel_membership fst];
      rewrite ?update_one_lookup, ?decide_True, ?E by reflexivity; cbn;
      rewrite ?Hstep; split; intros Hx;
      try (intuition congruence); try discriminate; eauto.
Qed.

(** C3 (as amended): a confirmation button of step [k] pressed while the
    record is on another step is answered "not on this step" and changes
    nothing; a text message carries no step and is read as the input of the
    current step, so it is turned away unchanged, with the current step
    named, when the current step takes no text (it is not 2, 3 or 5), and
    only then. *)
Theorem off_step_events_rejected (db : users) (user_id : Z) (u : user) :
  db !! user_id = Some u ->
  (forall k data api now,
      Spec.button_data k = Some data ->
      current_step u <> k ->
      button_handler user_id data api now db = (db, [NotOnStep k]))
  /\ (forall text t_save t_step,
        current_step u <> 2 -> current_step u <> 3 -> current_step u <> 5 ->
        handle_message user_id text t_save t_step db
        = (db, [CurrentlyOnStep (current_step u)]))
  /\ (forall text t_save t_step,
        current_step u = 2 \/ current_step u = 3 \/ current_step u = 5 ->
        snd (handle_message user_id text t_save t_step db)
        <> [CurrentlyOnStep (current_step u)]).
Proof.
  intros E. split; [|split].
  - intros k data api now Hdata Hk. unfold Spec.button_data in Hdata.
    unfold button_handler, get_user. rewrite E.
    destruct (k =? 1) eqn:K1; [apply Z.eqb_eq in K1; subst k|].
    { injection Hdata as <-. literal_data.
      now rewrite (proj2 (Z.eqb_neq _ _) Hk). }
    destruct (k =? 4) eqn:K4; [apply Z.eqb_eq in K4; subst k|].
    { injection Hdata as <-. literal_data.
      now rewrite (proj2 (Z.eqb_neq _ _) Hk). }
    destruct (k =? 6) eqn:K6; [apply Z.eqb_eq in K6; subst k|discriminate].
    injection Hdata as <-. literal_data.
    now rewrite (proj2 (Z.eqb_neq _ _) Hk).
  - intros text t_save t_step H2 H3 H5. unfold handle_message, get_user. rewrite E.
    now rewrite (proj2 (Z.eqb_neq _ _) H2), (proj2 (Z.eqb_neq _ _) H3),
      (proj2 (Z.eqb_neq _ _) H5).
  - intros text t_save t_step Hstep. unfold handle_message, get_user. rewrite E.
    assert (forall platform step n,
      snd (handle_social platform step user_id (strip text) t_save t_step db)
      <> [CurrentlyOnStep n]) as Hsocial.
    { intros platform step n. unfold handle_social.
      destruct (Validators.validate_username _) as [[is_valid msg]|]; [|discriminate].
      destruct is_valid; [|discriminate].
      destruct (verify_social_follow _ _) as [is_follower|]; [|discriminate].
      destruct is_follower; [|discriminate].
      destruct (save_social_username _ _ _ _ _) as [saved db1].
      destruct saved; [|discriminate].
      now destruct (update_user_step _ _ _ _ _). }
    destruct Hstep as [-> | [-> | ->]]; cbn [Z.eqb Pos.eqb]; try apply Hsocial.
    destruct (Validators.validate_bep20_address _) as [[is_valid msg]|]; [|discriminate].
    destruct is_valid; [|discriminate].
    destruct (save_bep20_address _ _ _ _) as [saved db1].
    destruct saved; [|discriminate].
    now destruct (update_user_step _ _ _ _ _).
Qed.

End HandlerFacts.

(** ** The step-order invariant *)

Section Invariant.
Import PyStr Database Main.
Context `{UnicodeCase}.
Local Open Scope Z_scope.

Lemma new_user_ordered user_id uname fname t1 t2 :
  Spec.step_order (new_user user_id uname fname t1 t2).
Proof. intros n. cbn. now rewrite lookup_empty. Qed.

Lemma set_reset_ordered now u : Spec.step_order (set_reset now u).
Proof. intros n. cbn. now rewrite lookup_empty. Qed.

Lemma set_social_username_ordered platform name now u :
  Spec.step_order u -> Spec.step_order (set_social_username platform name now u).
Proof. intros Hu n. exact (Hu n). Qed.

Lemma set_bep20_address_ordered address now u :
  Spec.step_order u -> Spec.step_order (set_bep20_address address now u).
Proof. intros Hu n. exact (Hu n). Qed.

(** Completing the step the record is on keeps the order. *)
Lemma set_step_ordered step now u :
  current_step u = step -> Spec.step_order u -> Spec.step_order (set_step step true now u).
Proof.
  intros Hstep Hu n. cbn. destruct (decide (n = step)) as [->|Hn].
  - intros _. lia.
  - rewrite lookup_insert_ne by congruence. intros Hc. specialize (Hu n Hc). lia.
Qed.

Lemma update_one_ordered user_id (f : user -> user) (db : users) :
  all_ordered db ->
  (forall u, db !! user_id = Some u -> Spec.step_order (f u)) ->
  all_ordered (snd (update_one user_id f db)).
Proof.
  intros Hdb Hf j u. rewrite update_one_lookup. case_decide; [|apply Hdb].
  destruct (db !! user_id) as [u0|] eqn:E; [|discriminate].
  intros [= <-]. now apply Hf.
Qed.

(** Completing step [k] for a record that is on step [k]. *)
Lemma update_user_step_ordered now user_id step (db : users) :
  all_ordered db ->
  (forall u, db !! user_id = Some u -> current_step u = step) ->
  all_ordered (snd (update_user_step now user_id step true db)).
Proof.
  intros Hdb Hstep. rewrite update_user_step_db. apply update_one_ordered; [exact Hdb|].
  intros u E. apply set_step_ordered; [now apply Hstep|exact (Hdb _ _ E)].
Qed.

Lemma on_step (db : users) user_id u step :
  db !! user_id = Some u -> (current_step u =? step) = true ->
  forall u', db !! user_id = Some u' -> current_step u' = step.
Proof. intros E Hs u' E'. rewrite E in E'. injection E' as <-. now apply Z.eqb_eq. Qed.

Lemma button_handler_ordered user_id data api now (db : users) :
  all_ordered db -> all_ordered (fst (button_handler user_id data api now db)).
Proof.
  intros Hdb. unfold button_handler, get_user.
  destruct (db !! user_id) as [u|] eqn:E; [|exact Hdb].
  repeat match goal with
         | |- context [if str_eqb ?a ?b then _ else _] => destruct (str_eqb a b)
         | |- context [if orb ?a ?b then _ else _] => destruct (orb a b)
         end; try exact Hdb.
  - destruct (current_step u =? 1) eqn:Hs; [|exact Hdb].
    pose proof (update_user_step_ordered now user_id 1 db Hdb (on_step _ _ _ _ E Hs)).
    now destruct (update_user_step _ _ _ _ _).
  - destruct (current_step u =? 4) eqn:Hs; [|exact Hdb].
    destruct (check_channel_membership api); [|exact Hdb].
    pose proof (update_user_step_ordered now user_id 4 db Hdb (on_step _ _ _ _ E Hs)).
    now destruct (update_user_step _ _ _ _ _).
  - destruct (current_step u =? 6) eqn:Hs; [|exact Hdb].
    pose proof (update_user_step_ordered now user_id 6 db Hdb (on_step _ _ _ _ E Hs)).
    now destruct (update_user_step _ _ _ _ _).
  - pose proof (update_one_ordered user_id (set_reset now) db Hdb
                  (fun u _ => set_reset_ordered now u)).
    now destruct (update_one _ _ _).
Qed.

(** Saving a field and then completing the step the record is on. *)
Lemma save_then_step_ordered user_id (f : user -> user) step t_step (db : users) u :
  all_ordered db ->
  db !! user_id = Some u -> current_step u = step ->
  (forall v, Spec.step_order v -> Spec.step_order (f v)) ->
  (forall v, current_step (f v) = current_step v) ->
  all_ordered (snd (update_one user_id f db))
  /\ all_ordered (snd (update_user_step t_step user_id step true
                         (snd (update_one user_id f db)))).
Proof.
  intros Hdb E Hstep Hf Hcur.
  assert (all_ordered (snd (update_one user_id f db))) as H1.
  { apply update_one_ordered; [exact Hdb|]. intros v Ev. apply Hf, (Hdb _ _ Ev). }
  split; [exact H1|].
  apply update_user_step_ordered; [exact H1|].
  intros v. rewrite update_one_lookup, decide_True, E by reflexivity.
  intros [= <-]. now rewrite Hcur.
Qed.

Lemma handle_social_ordered platform step user_id text t_save t_step (db : users) u :
  all_ordered db ->
  db !! user_id = Some u -> current_step u = step ->
  all_ordered (fst (handle_social platform step user_id text t_save t_step db)).
Proof.
  intros Hdb E Hstep. unfold handle_social.
  destruct (Validators.validate_username _) as [[is_valid msg]|]; [|exact Hdb].
  destruct is_valid; [|exact Hdb].
  destruct (verify_social_follow _ _) as [[]|]; try exact Hdb.
  rewrite save_social_username_db.
  destruct (save_then_step_ordered user_id
              (set_social_username platform (strip (lstrip (lit "@") text)) t_save)
              step t_step db u Hdb E Hstep) as [H1 H2].
  { intros v. apply set_social_username_ordered. }
  { reflexivity. }
  destruct (0 <? _)%nat; [|exact H1].
  now destruct (update_user_step _ _ _ _ _).
Qed.

Lemma handle_message_ordered user_id text t_save t_step (db : users) :
  all_ordered db -> all_ordered (fst (handle_message user_id text t_save t_step db)).
Proof.
  intros Hdb. unfold handle_message, get_user.
  destruct (db !! user_id) as [u|] eqn:E; [|exact Hdb].
  destruct (current_step u =? 2) eqn:H2.
  { apply (handle_social_ordered _ _ _ _ _ _ _ u Hdb E). now apply Z.eqb_eq. }
  destruct (current_step u =? 3) eqn:H3.
  { apply (handle_social_ordered _ _ _ _ _ _ _ u Hdb E). now apply Z.eqb_eq. }
  destruct (current_step u =? 5) eqn:H5; [|exact Hdb].
  destruct (Validators.validate_bep20_address _) as [[is_valid msg]|]; [|exact Hdb].
  destruct is_valid; [|exact Hdb].
  rewrite save_bep20_address_db.
  destruct (save_then_step_ordered user_id (set_bep20_address (strip text) t_save)
              5 t_step db u Hdb E) as [H1' H2'].
  { now apply Z.eqb_eq. }
  { intros v. apply set_bep20_address_ordered. }
  { reflexivity. }
  destruct (0 <? _)%nat; [|exact H1'].
  now destruct (update_user_step _ _ _ _ _).
Qed.

Lemma reset_command_ordered user_id now (db : users) :
  all_ordered db -> all_ordered (fst (reset_command user_id now db)).
Proof.
  intros Hdb. rewrite reset_command_db. apply update_one_ordered; [exact Hdb|].
  intros u _. apply set_reset_ordered.
Qed.

Lemma start_ordered user_id uname fname t1 t2 (db : users) :
  all_ordered db -> all_ordered (fst (start user_id uname fname t1 t2 db)).
Proof.
  intros Hdb. unfold start, get_user.
  destruct (db !! user_id) as [u|] eqn:E.
  - now destruct (6 <? current_step u).
  - unfold create_user, insert_one. cbn [_id new_user]. rewrite E. cbn [fst].
    intros j v. destruct (decide (j = user_id)) as [->|Hj].
    + rewrite lookup_insert_eq. intros [= <-]. apply new_user_ordered.
    + rewrite lookup_insert_ne by congruence. apply Hdb.
Qed.

Lemma handle_ordered ev (db : users) :
  all_ordered db -> all_ordered (fst (handle ev db)).
Proof.
  destruct ev; cbn [handle].
  - apply start_ordered.
  - apply button_handler_ordered.
  - apply handle_message_ordered.
  - apply reset_command_ordered.
Qed.

Lemma reachable_ordered (db : users) : reachable db -> all_ordered db.
Proof.
  induction 1 as [|ev db _ IH].
  - intros j u. now rewrite lookup_empty.
  - now apply handle_ordered.
Qed.

(** C4: in every collection the handlers can produce from an empty one, a
    record with step [n] (1..6) marked completed has [current_step >= n+1]. *)
Theorem completed_step_below_current (db : users) (user_id : Z) (u : user) (n : Z) :
  reachable db ->
  db !! user_id = Some u ->
  1 <= n <= 6 ->
  steps_completed u !! n = Some true ->
  current_step u >= n + 1.
Proof.
  intros Hreach E _ Hn. pose proof (reachable_ordered db Hreach user_id u E n Hn). lia.
Qed.

End Invariant.

(** ** The properties on the sample run *)

Section SampleRun.
Import PyStr Database Main Sample.
Local Open Scope Z_scope.
#[local] Existing Instance ascii_case.

Lemma db_step3_john : db_step3 !! 7 = Some john_step3.
Proof. vm_compute. reflexivity. Defined.

Lemma db_step4_john : db_step4 !! 7 = Some john_step4.
Proof. vm_compute. reflexivity. Defined.

Lemma db_step3_reachable : reachable db_step3.
Proof. unfold db_step3, run, onboarding. cbn [fold_left]. repeat constructor. Defined.

Lemma db_step4_reachable : reachable db_step4.
Proof. unfold db_step4, run. cbn [fold_left]. constructor. exact db_step3_reachable. Defined.

(** C3 as stated fails for text: a text meant for step 2 that arrives while the
    record is on step 3 is taken as the Instagram handle, stored, and the
    record moves to step 4. *)
Lemma text_event_read_at_current_step :
  Spec.addressed_step (Spec.TextFor 2 (lit "jane.doe")) = 2
  /\ current_step <$> db_step3 !! 7 = Some 3
  /\ exists ev,
       Spec.deliver 7 (Spec.TextFor 2 (lit "jane.doe")) (Member MEMBER) 104 105 = Some ev
       /\ snd (handle ev db_step3) = [HandleVerified "instagram" (lit "jane.doe"); ShowStep 4]
       /\ current_step <$> fst (handle ev db_step3) !! 7 = Some 4.
Proof.
  split; [reflexivity|]. split; [vm_compute; reflexivity|].
  eexists. split; [reflexivity|]. split; vm_compute; reflexivity.
Qed.

Lemma off_step_events_rejected_witness :
  db_step3 !! 7 = Some john_step3
  /\ button_handler 7 (lit "verify_step_1") (Member MEMBER) 200 db_step3
     = (db_step3, [NotOnStep 1])
  /\ handle_message 7 (lit "0x742d35Cc6634C0532925a3b8D4B29E3f5fCffd52") 200 201 db_step4
     = (db_step4, [CurrentlyOnStep 4]).
Proof.
  split; [exact db_step3_john|]. split.
  - apply (proj1 (off_step_events_rejected db_step3 7 john_step3 db_step3_john) 1).
    + reflexivity.
    + vm_compute. discriminate.
  - apply (proj1 (proj2 (off_step_events_rejected db_step4 7 john_step4 db_step4_john)));
      vm_compute; discriminate.
Defined.

Lemma completed_step_below_current_witness :
  reachable db_step3
  /\ db_step3 !! 7 = Some john_step3
  /\ steps_completed john_step3 !! 2 = Some true
  /\ current_step john_step3 >= 2 + 1.
Proof.
  split; [exact db_step3_reachable|]. split; [exact db_step3_john|].
  split; [vm_compute; reflexivity|].
  apply (completed_step_below_current db_step3 7 john_step3 2).
  - exact db_step3_reachable.
  - exact db_step3_john.
  - lia.
  - vm_compute. reflexivity.
Defined.

Lemma reset_clears_progress_witness :
  db_step3 !! 7 = Some john_step3
  /\ exists u',
       fst (reset_command 7 300 db_step3) !! 7 = Some u'
       /\ current_step u' = 1
       /\ steps_completed u' = ∅
       /\ bep20_address u' = None
       /\ screenshots u' = screenshots john_step3
       /\ created_at u' = created_at john_step3.
Proof.
  split; [exact db_step3_john|].
  destruct (reset_clears_progress db_step3 7 300 (Member MEMBER) john_step3 db_step3_john)
    as (u' & Hreset & _ & Hstep & Hdone & _ & Haddr & Hshots & _ & _ & _ & Hcreated & _).
  exists u'. repeat split; assumption.
Defined.

Lemma membership_fails_closed_witness :
  db_step4 !! 7 = Some john_step4
  /\ current_step john_step4 = 4
  /\ button_handler 7 (lit "verify_telegram") (Fails Forbidden) 300 db_step4
     = (db_step4, [VerifyingMembership; VerificationFailed; ShowStep 4]).
Proof.
  split; [exact db_step4_john|]. split; [reflexivity|].
  apply (membership_fails_closed db_step4 7 300 john_step4 Forbidden).
  - exact db_step4_john.
  - reflexivity.
Defined.

Lemma validate_screenshot_no_lower_bound_witness :
  -1 <= 5242880
  /\ Validators.validate_screenshot (PyInt (-1)) (PyStr (lit ".jpg"))
     = Ok (true, lit "Valid screenshot").
Proof.
  split; [lia|].
  apply (validate_screenshot_no_lower_bound (-1) (lit "photo.PNG")). lia.
Defined.

End SampleRun.

(** ** More on the validators *)

Section ValidatorExtras.
Import PyStr Validators.

Lemma drop_while_fixed p s :
  match s with [] => True | c :: _ => p c = false end -> drop_while p s = s.
Proof. destruct s as [|c s]; [reflexivity|]. cbn. now intros ->. Qed.

Lemma drop_while_idem p s : drop_while p (drop_while p s) = drop_while p s.
Proof.
  apply drop_while_fixed.
  destruct (drop_while p s) as [|c t] eqn:E; [exact I|].
  exact (drop_while_head _ _ _ _ E).
Qed.

Lemma drop_while_snoc p l c :
  p c = false -> drop_while p (l ++ [c]) = drop_while p l ++ [c].
Proof.
  intros Hc. induction l as [|a l IH]; cbn; [now rewrite Hc|].
  destruct (p a); [exact IH|reflexivity].
Qed.

Lemma rdrop_while_cons p c t :
  p c = false -> rdrop_while p (c :: t) = c :: rdrop_while p t.
Proof.
  intros Hc. unfold rdrop_while. cbn [rev].
  rewrite drop_while_snoc by exact Hc. now rewrite rev_app_distr.
Qed.

Lemma rdrop_while_idem p s : rdrop_while p (rdrop_while p s) = rdrop_while p s.
Proof. unfold rdrop_while. now rewrite rev_involutive, drop_while_idem. Qed.

(** Trimming what is already trimmed changes nothing. *)
Lemma strip_idempotent s : strip (strip s) = strip s.
Proof.
  unfold strip.
  assert (drop_while isspace (rdrop_while isspace (drop_while isspace s))
          = rdrop_while isspace (drop_while isspace s)) as ->.
  { destruct (drop_while isspace s) as [|c t] eqn:E; [reflexivity|].
    pose proof (drop_while_head _ _ _ _ E) as Hc.
    rewrite rdrop_while_cons by exact Hc. cbn. now rewrite Hc. }
  apply rdrop_while_idem.
Qed.

Lemma validate_username_run (s : str) :
  exists msg, validate_username (PyStr s) = Ok (Spec.passes (Spec.handle_verdict s), msg).
Proof.
  destruct s as [|c s]; [now eexists|].
  unfold validate_username, Spec.handle_verdict, Spec.handle_rules.
  cbn [Py.truthy negb Py.lstrip bind Py.re_match].
  pose proof (strip_no_final_newline (lstrip (lit "@") (c :: s))) as Hnl.
  set (h := strip (lstrip (lit "@") (c :: s))) in *. clearbody h.
  destruct (length h <? 3)%nat eqn:Hshort; [now eexists|].
  destruct (30 <? length h)%nat; [now eexists|].
  rewrite match_username_pattern by exact Hnl.
  destruct h as [|a h]; [discriminate|].
  destruct (forallb Spec.handle_char (a :: h)); cbn [negb]; [|now eexists].
  rewrite <- boundary_first, <- boundary_last, <- contains_specials.
  repeat match goal with
         | |- context [if ?b then _ else _] => destruct b; [now eexists|]
         end.
  now eexists.
Qed.

Lemma validate_username_accepts (s msg : str) :
  validate_username (PyStr s) = Ok (true, msg) -> Spec.handle_verdict s = Spec.Pass.
Proof.
  destruct (validate_username_run s) as [msg' E]. rewrite E. intros [= Hp _].
  now destruct (Spec.handle_verdict s).
Qed.

Lemma validate_bep20_address_run `{UnicodeCase} (s : str) :
  exists msg,
    validate_bep20_address (PyStr s) = Ok (Spec.passes (Spec.address_verdict s), msg).
Proof.
  destruct s as [|c s]; [now eexists|].
  unfold validate_bep20_address, Spec.address_verdict.
  cbn [Py.truthy negb Py.strip bind Py.re_match Py.lower].
  rewrite match_bep20_pattern by apply strip_no_final_newline.
  set (a := strip (c :: s)). clearbody a.
  destruct (Spec.exact_address a) eqn:E; cbn [negb]; [|now eexists].
  rewrite (lower_exact_address a E).
  assert (in_list (map ascii_lower a) invalid_addresses = Spec.blocked a) as ->.
  { unfold in_list, Spec.blocked. cbn [existsb invalid_addresses].
    now rewrite orb_false_r. }
  destruct (Spec.blocked a); now eexists.
Qed.

(** An accepted address is, once trimmed, well formed and not blocked. *)
Lemma validate_bep20_address_accepts `{UnicodeCase} (s msg : str) :
  validate_bep20_address (PyStr s) = Ok (true, msg) ->
  Spec.address_accepted (strip s) = true.
Proof.
  destruct (validate_bep20_address_run s) as [msg' E]. rewrite E. intros [= Hp _].
  destruct s as [|c s]; [discriminate|].
  unfold Spec.address_verdict in Hp. unfold Spec.address_accepted.
  destruct (Spec.exact_address (strip (c :: s))); [|discriminate].
  now destruct (Spec.blocked (strip (c :: s))).
Qed.

(** X1: trimming the argument beforehand, as [handle_message] does, never
    changes the decision of [validate_bep20_address], and changes nothing at
    all unless the argument is whitespace only. *)
Theorem validate_bep20_address_pretrimmed `{UnicodeCase} (s : str) :
  (forall b msg,
      validate_bep20_address (PyStr (strip s)) = Ok (b, msg) ->
      exists msg', validate_bep20_address (PyStr s) = Ok (b, msg'))
  /\ (strip s <> [] ->
      validate_bep20_address (PyStr (strip s)) = validate_bep20_address (PyStr s)).
Proof.
  split.
  - intros b msg E.
    destruct (validate_bep20_address_run (strip s)) as [m1 E1].
    destruct (validate_bep20_address_run s) as [m2 E2].
    rewrite E1 in E. injection E as <- _. exists m2. rewrite E2. do 2 f_equal.
    unfold Spec.address_verdict. rewrite strip_idempotent.
    destruct s as [|c s]; [reflexivity|].
    destruct (strip (c :: s)) as [|a t] eqn:Es; [reflexivity|].
    reflexivity.
  - intros Hne. destruct s as [|c s]; [reflexivity|].
    destruct (strip (c :: s)) as [|a t] eqn:Es; [contradiction|].
    unfold validate_bep20_address.
    cbn [Py.truthy negb Py.strip bind]. now rewrite <- Es, strip_idempotent.
Qed.

Lemma lower_from_app `{UnicodeCase} whole i a b :
  lower_from whole i (a ++ b)
  = lower_from whole i a ++ lower_from whole (i + length a) b.
Proof.
  revert i. induction a as [|c a IH]; intros i; cbn [app lower_from length].
  - now rewrite Nat.add_0_r.
  - rewrite IH, <- app_assoc. now rewrite Nat.add_succ_r.
Qed.

(** X2: the extension test of [validate_screenshot] ignores case and whatever
    precedes the extension: a name whose last characters are ASCII and
    lowercase to one of the six extensions is accepted at any size up to the
    limit. *)
Theorem validate_screenshot_any_case `{UnicodeCase} (size : Z) (stem ext : str) :
  (size <= 5242880)%Z ->
  Forall (fun c => c < 0x80) ext ->
  In (map ascii_lower ext) valid_extensions ->
  validate_screenshot (PyInt size) (PyStr (stem ++ ext)) = Ok (true, lit "Valid screenshot").
Proof.
  intros Hsize Hascii Hext.
  assert ((max_size <? size)%Z = false) as Hgt.
  { apply Z.ltb_ge. unfold max_size. lia. }
  unfold validate_screenshot. cbn [Py.gt Py.lower bind]. rewrite Hgt.
  assert (existsb (endswith (lower (stem ++ ext))) valid_extensions = true) as ->;
    [|reflexivity].
  apply existsb_exists. exists (map ascii_lower ext). split; [exact Hext|].
  apply endswith_app. unfold lower. rewrite lower_from_app.
  rewrite (lower_from_ascii _ _ ext).
  - now eexists.
  - apply forallb_forall. intros c Hc. apply N.ltb_lt.
    rewrite List.Forall_forall in Hascii. now apply Hascii.
Qed.

End ValidatorExtras.

(** ** More on the progress store *)

Section StoreExtras.
Import PyStr Database.
Local Open Scope Z_scope.

Lemma update_one_found (user_id : Z) (f : user -> user) (db : users) (u : user) :
  db !! user_id = Some u ->
  update_one user_id f db
  = if bool_decide (f u = u) then (O, db) else (1%nat, <[user_id := f u]> db).
Proof. intros E. unfold update_one. now rewrite E. Qed.

(** X3: a write for an id that has no record answers [False] and leaves the
    collection as it was, for each of the four writing methods. *)
Theorem writes_need_a_record (db : users) (user_id : Z) :
  db !! user_id = None ->
  (forall now step completed,
      update_user_step now user_id step completed db = (false, db))
  /\ (forall now platform name,
        save_social_username now user_id platform name db = (false, db))
  /\ (forall now address, save_bep20_address now user_id address db = (false, db))
  /\ (forall t_uploaded now fid fname,
        add_screenshot t_uploaded now user_id fid fname db = (false, db)).
Proof.
  intros E. repeat split; intros;
    unfold update_user_step, save_social_username, save_bep20_address, add_screenshot;
    now rewrite update_one_missing.
Qed.

Lemma push_screenshot_changes shot now u : push_screenshot shot now u <> u.
Proof.
  intros E. apply (f_equal (fun v => length (screenshots v))) in E.
  cbn in E. rewrite length_app in E. cbn in E. lia.
Qed.

(** X4: for a user that has a record [add_screenshot] always answers [True];
    it puts the new screenshot after the ones already stored, which keep their
    order, and changes nothing else but [updated_at], in no other record. *)
Theorem add_screenshot_appends (db : users) (user_id : Z) (u : user)
    (t_uploaded now : Z) (fid fname : str) :
  db !! user_id = Some u ->
  exists u',
    add_screenshot t_uploaded now user_id fid fname db = (true, <[user_id := u']> db)
    /\ screenshots u' = screenshots u ++ [mkScreenshot fid fname t_uploaded]
    /\ updated_at u' = now
    /\ _id u' = _id u /\ username u' = username u /\ first_name u' = first_name u
    /\ current_step u' = current_step u /\ steps_completed u' = steps_completed u
    /\ bep20_address u' = bep20_address u /\ social_usernames u' = social_usernames u
    /\ created_at u' = created_at u.
Proof.
  intros E. exists (push_screenshot (mkScreenshot fid fname t_uploaded) now u).
  split; [|repeat split].
  unfold add_screenshot. rewrite (update_one_found _ _ _ _ E).
  rewrite bool_decide_eq_false_2 by apply push_screenshot_changes. reflexivity.
Qed.

(** X5: for a platform that names one field (not empty, without ".", "$"
    or NUL, as "twitter" and "instagram" are), saving the handle stores it
    under that platform and leaves the handle of every other platform, the
    step, the completed steps and the wallet address of the record, and
    every other record, as they were. *)
Theorem save_social_username_only (db : users) (user_id now : Z) (platform : string)
    (name : str) (u : user) :
  plain_field platform = true ->
  db !! user_id = Some u ->
  exists u',
    snd (save_social_username now user_id platform name db) !! user_id = Some u'
    /\ social_usernames u' !! platform = Some (Some name)
    /\ (forall other, other <> platform ->
          social_usernames u' !! other = social_usernames u !! other)
    /\ current_step u' = current_step u
    /\ steps_completed u' = steps_completed u
    /\ bep20_address u' = bep20_address u
    /\ (forall j, j <> user_id ->
          snd (save_social_username now user_id platform name db) !! j = db !! j).
Proof.
  intros _ E. exists (set_social_username platform name now u).
  rewrite save_social_username_db. cbn [snd].
  rewrite update_one_lookup, decide_True, E by reflexivity.
  split; [reflexivity|]. split; [apply lookup_insert_eq|].
  split; [intros other Ho; cbn; now rewrite lookup_insert_ne|].
  repeat split. intros j Hj. now rewrite update_one_lookup, decide_False.
Qed.

End StoreExtras.

(** ** Statistics *)

Section StatsFacts.
Import PyStr Database Stats.
Local Open Scope Z_scope.

Lemma count_all (db : users) : count_documents (fun _ => True) db = size db.
Proof.
  unfold count_documents. f_equal. apply map_filter_id. intros; exact I.
Qed.

Lemma count_le_size (query : user -> Prop) `{forall u, Decision (query u)} (db : users) :
  (count_documents query db <= size db)%nat.
Proof. unfold count_documents. apply map_subseteq_size, map_filter_subseteq. Qed.

(** X6: [get_user_stats] counts every record as a user and never more
    completed users than users; the rate is computed only from a positive
    number of users, and is the integer 0 for an empty collection. *)
Theorem get_user_stats_bounds (db : users) :
  total_users (get_user_stats db) = size db
  /\ (completed_users (get_user_stats db) <= total_users (get_user_stats db))%nat
  /\ (forall c t, completion_rate (get_user_stats db) = RatePercent c t ->
        (0 < t)%nat /\ t = size db /\ c = completed_users (get_user_stats db))
  /\ (completion_rate (get_user_stats db) = RateZero <-> db = ∅).
Proof.
  unfold get_user_stats. cbn [total_users completed_users completion_rate].
  rewrite count_all. split; [reflexivity|]. split; [apply count_le_size|].
  destruct (0 <? size db)%nat eqn:Hpos.
  - apply Nat.ltb_lt in Hpos. split.
    + intros c t [= <- <-]. repeat split; assumption.
    + split; [discriminate|]. intros ->. rewrite map_size_empty in Hpos. lia.
  - apply Nat.ltb_ge in Hpos. split; [discriminate|].
    split; [intros _|reflexivity]. apply map_size_empty_inv. lia.
Qed.

Lemma count_insert_fresh (query : user -> Prop) `{forall u, Decision (query u)}
    (db : users) (j : Z) (u : user) :
  db !! j = None ->
  count_documents query (<[j := u]> db)
  = (count_documents query db + if decide (query u) then 1 else 0)%nat.
Proof.
  intros E. unfold count_documents. case_decide as Hq.
  - rewrite map_filter_insert_True by exact Hq.
    rewrite map_size_insert_None; [lia|].
    apply map_lookup_filter_None_2. now left.
  - rewrite map_filter_insert_not'; [lia|exact Hq|]. intros y Ey. congruence.
Qed.

(** X7: [total_users] grows by one exactly when [create_user] answers [True]
    and is unchanged when it answers [False]; [completed_users] is the same
    before and after, whatever the answer. *)
Theorem create_user_counts (db : users) (t_created t_updated user_id : Z)
    (uname fname : str) :
  let r := create_user t_created t_updated user_id uname fname db in
  total_users (get_user_stats (snd r))
  = (if fst r then S (total_users (get_user_stats db)) else total_users (get_user_stats db))
  /\ completed_users (get_user_stats (snd r)) = completed_users (get_user_stats db).
Proof.
  cbv zeta. unfold create_user, insert_one. cbn [_id new_user].
  destruct (db !! user_id) as [u|] eqn:E; cbn [fst snd]; [split; reflexivity|].
  unfold get_user_stats. cbn [total_users completed_users].
  rewrite !count_insert_fresh by exact E. split.
  - rewrite decide_True by exact I. lia.
  - rewrite decide_False by (cbn; lia). lia.
Qed.

End StatsFacts.

(** ** Every handler acts on the record of its user alone *)

Section EffectFacts.
Import PyStr Database Main Effect.
Context `{UnicodeCase}.
Local Open Scope Z_scope.

Local Ltac literal_data :=
  repeat match goal with
         | |- context [str_eqb (lit ?a) (lit ?b)] =>
             let v := eval vm_compute in (str_eqb (lit a) (lit b)) in
             change (str_eqb (lit a) (lit b)) with v
         end;
  cbn [orb].

Lemma lookup_own (f : user -> user) (db : users) (j user_id : Z) :
  (if decide (j = user_id) then f <$> db !! user_id else db !! j)
  = if decide (j = user_id)
    then match db !! j with Some u => Some (f u) | None => None end
    else db !! j.
Proof. case_decide; [subst; now destruct (db !! user_id)|reflexivity]. Qed.

Lemma unchanged_own (db : users) (j user_id : Z) :
  db !! j
  = if decide (j = user_id)
    then match db !! j with Some u => Some u | None => None end
    else db !! j.
Proof. case_decide; [now destruct (db !! j)|reflexivity]. Qed.

Lemma update_user_step_lookup now user_id step completed (db : users) (j : Z) :
  snd (update_user_step now user_id step completed db) !! j
  = if decide (j = user_id) then set_step step completed now <$> db !! user_id else db !! j.
Proof. rewrite update_user_step_db. apply update_one_lookup. Qed.

Lemma button_handler_lookup user_id data api now (db : users) (j : Z) :
  fst (button_handler user_id data api now db) !! j
  = if decide (j = user_id)
    then match db !! j with Some u => Some (button_effect data api now u) | None => None end
    else db !! j.
Proof.
  unfold button_handler, get_user.
  destruct (db !! user_id) as [u|] eqn:E.
  2:{ cbn [fst]. case_decide; [subst; now rewrite E|reflexivity]. }
  assert (forall f : user -> user,
    (if decide (j = user_id) then f <$> db !! user_id else db !! j)
    = if decide (j = user_id)
      then match db !! j with Some u => Some (f u) | None => None end
      else db !! j) as Hown by (intros; apply lookup_own).
  assert (db !! j
    = if decide (j = user_id)
      then match db !! j with Some u => Some u | None => None end
      else db !! j) as Hsame by apply unchanged_own.
  unfold button_effect.
  destruct (str_eqb data (lit "verify_step_1")).
  { destruct (current_step u =? 1) eqn:Hs.
    - destruct (update_user_step now user_id 1 true db) as [r db'] eqn:Eu.
      cbn [fst]. change db' with (snd (r, db')). rewrite <- Eu.
      rewrite update_user_step_lookup, Hown.
      case_decide; [subst; now rewrite E, Hs|reflexivity].
    - cbn [fst]. rewrite Hsame at 1.
      case_decide; [subst; now rewrite E, Hs|reflexivity]. }
  destruct (str_eqb data (lit "verify_telegram")).
  { destruct (current_step u =? 4) eqn:Hs.
    - destruct (check_channel_membership api).
      + destruct (update_user_step now user_id 4 true db) as [r db'] eqn:Eu.
        cbn [fst]. change db' with (snd (r, db')). rewrite <- Eu.
        rewrite update_user_step_lookup, Hown.
        case_decide; [subst; now rewrite E, Hs|reflexivity].
      + cbn [fst]. rewrite Hsame at 1.
        case_decide; [subst; now rewrite E, Hs|reflexivity].
    - cbn [fst]. rewrite Hsame at 1.
      case_decide; [subst; now rewrite E, Hs|reflexivity]. }
  destruct (str_eqb data (lit "complete_process")).
  { destruct (current_step u =? 6) eqn:Hs.
    - destruct (update_user_step now user_id 6 true db) as [r db'] eqn:Eu.
      cbn [fst]. change db' with (snd (r, db')). rewrite <- Eu.
      rewrite update_user_step_lookup, Hown.
      case_decide; [subst; now rewrite E, Hs|reflexivity].
    - cbn [fst]. rewrite Hsame at 1.
      case_decide; [subst; now rewrite E, Hs|reflexivity]. }
  destruct (str_eqb data (lit "twitter_info") || str_eqb data (lit "instagram_info")
            || str_eqb data (lit "bep20_info")).
  { cbn [fst]. rewrite Hsame at 1. case_decide; [subst; now rewrite E|reflexivity]. }
  destruct (str_eqb data (lit "restart_process")).
  { destruct (update_one user_id (set_reset now) db) as [r db'] eqn:Eu.
    cbn [fst]. change db' with (snd (r, db')). rewrite <- Eu.
    rewrite update_one_lookup, Hown.
    case_decide; [subst; now rewrite E|reflexivity]. }
  destruct (str_eqb data (lit "show_status")).
  { cbn [fst]. rewrite Hsame at 1. case_decide; [subst; now rewrite E|reflexivity]. }
  destruct (str_eqb data (lit "help")).
  { cbn [fst]. rewrite Hsame at 1. case_decide; [subst; now rewrite E|reflexivity]. }
  cbn [fst]. rewrite Hsame at 1. case_decide; [subst; now rewrite E|reflexivity].
Qed.

(** A save followed, when it modified the document, by the completion of the
    step. *)
Lemma save_then_step_lookup (save : user -> user) step t_step user_id (db : users) u j :
  db !! user_id = Some u ->
  fst (let '(modified_count, db1) := update_one user_id save db in
       if (0 <? modified_count)%nat
       then (let '(_, db2) := update_user_step t_step user_id step true db1 in
             (db2, true))
       else (db1, false)) !! j
  = if decide (j = user_id) then Some (save_then_step save step t_step u) else db !! j.
Proof.
  intros E. rewrite (update_one_found _ _ _ _ E). unfold save_then_step.
  case_bool_decide as Hsame; cbn [Nat.ltb Nat.leb fst].
  - case_decide; [subst; exact E|reflexivity].
  - destruct (update_user_step t_step user_id step true (<[user_id:=save u]> db))
      as [r db2] eqn:Eu.
    cbn [fst]. change db2 with (snd (r, db2)). rewrite <- Eu.
    rewrite update_user_step_lookup, lookup_insert_eq. cbn.
    case_decide; [reflexivity|now rewrite lookup_insert_ne].
Qed.

Lemma handle_social_lookup platform step user_id message_text t_save t_step
    (db : users) u j :
  db !! user_id = Some u ->
  fst (handle_social platform step user_id message_text t_save t_step db) !! j
  = if decide (j = user_id)
    then Some (social_effect platform step message_text t_save t_step u)
    else db !! j.
Proof.
  intros E. unfold handle_social, social_effect.
  assert (db !! j = if decide (j = user_id) then Some u else db !! j) as Hsame.
  { case_decide; [subst; exact E|reflexivity]. }
  destruct (Validators.validate_username _) as [[is_valid msg]|]; [|exact Hsame].
  destruct is_valid; [|exact Hsame].
  destruct (verify_social_follow _ _) as [is_follower|]; [|exact Hsame].
  destruct is_follower; [|exact Hsame].
  rewrite <- (save_then_step_lookup _ step t_step user_id db u j E).
  unfold save_social_username.
  destruct (update_one _ _ _) as [m db1].
  destruct (0 <? m)%nat; [|reflexivity].
  now destruct (update_user_step _ _ _ _ _).
Qed.

Lemma handle_message_lookup user_id text t_save t_step (db : users) (j : Z) :
  fst (handle_message user_id text t_save t_step db) !! j
  = if decide (j = user_id)
    then match db !! j with
         | Some u => Some (message_effect text t_save t_step u)
         | None => None
         end
    else db !! j.
Proof.
  unfold handle_message, get_user.
  destruct (db !! user_id) as [u|] eqn:E.
  2:{ cbn [fst]. case_decide; [subst; now rewrite E|reflexivity]. }
  assert (forall v, (if decide (j = user_id) then Some v else db !! j)
    = if decide (j = user_id)
      then match db !! j with Some u => Some v | None => None end
      else db !! j) as Hown.
  { intros v. case_decide; [subst; now rewrite E|reflexivity]. }
  unfold message_effect.
  destruct (current_step u =? 2) eqn:H2.
  { rewrite (handle_social_lookup _ _ _ _ _ _ _ u j E), Hown.
    case_decide; [subst; now rewrite E, H2|reflexivity]. }
  destruct (current_step u =? 3) eqn:H3.
  { rewrite (handle_social_lookup _ _ _ _ _ _ _ u j E), Hown.
    case_decide; [subst; now rewrite E, H2, H3|reflexivity]. }
  destruct (current_step u =? 5) eqn:H5.
  2:{ cbn [fst]. case_decide; [subst; now rewrite E, H2, H3, H5|reflexivity]. }
  transitivity (if decide (j = user_id)
                then Some (match Validators.validate_bep20_address (PyStr (strip text)) with
                           | Ok (true, _) =>
                               save_then_step (set_bep20_address (strip text) t_save)
                                 5 t_step u
                           | _ => u
                           end)
                else db !! j).
  2:{ rewrite Hown. case_decide; [subst; now rewrite E, H2, H3, H5|reflexivity]. }
  assert (db !! j = if decide (j = user_id) then Some u else db !! j) as Hsame.
  { case_decide; [subst; exact E|reflexivity]. }
  destruct (Validators.validate_bep20_address _) as [[is_valid msg]|]; [|exact Hsame].
  destruct is_valid; [|exact Hsame].
  rewrite <- (save_then_step_lookup _ 5 t_step user_id db u j E).
  unfold save_bep20_address.
  destruct (update_one _ _ _) as [m db1].
  destruct (0 <? m)%nat; [|reflexivity].
  now destruct (update_user_step _ _ _ _ _).
Qed.

Lemma reset_command_lookup user_id now (db : users) (j : Z) :
  fst (reset_command user_id now db) !! j
  = if decide (j = user_id)
    then match db !! j with Some u => Some (set_reset now u) | None => None end
    else db !! j.
Proof. rewrite reset_command_db, update_one_lookup. apply lookup_own. Qed.

Lemma start_lookup user_id uname fname t_created t_updated (db : users) (j : Z) :
  fst (start user_id uname fname t_created t_updated db) !! j
  = if decide (j = user_id)
    then match db !! j with
         | Some u => Some u
         | None => Some (new_user user_id (or_default uname (lit "No username"))
                           (or_default fname (lit "User")) t_created t_updated)
         end
    else db !! j.
Proof.
  unfold start, get_user. destruct (db !! user_id) as [u|] eqn:E.
  - assert (fst (if 6 <? current_step u
                 then (db, [AlreadyCompleted; Uncaught KeyError])
                 else (db, [WelcomeBack (current_step u); ShowStep (current_step u)]))
            = db) as -> by now destruct (6 <? current_step u).
    case_decide; [subst; now rewrite E|reflexivity].
  - unfold create_user, insert_one. cbn [_id new_user]. rewrite E. cbn [fst].
    case_decide; [subst; now rewrite lookup_insert_eq, E|now rewrite lookup_insert_ne].
Qed.

(** The collection after an event, record by record. *)
Lemma handle_lookup (ev : event) (db : users) (j : Z) :
  fst (handle ev db) !! j
  = if decide (j = event_user ev)
    then match db !! j with
         | Some u => Some (record_effect ev u)
         | None => created_by ev
         end
    else db !! j.
Proof.
  destruct ev; cbn [handle event_user record_effect created_by].
  - apply start_lookup.
  - apply button_handler_lookup.
  - apply handle_message_lookup.
  - apply reset_command_lookup.
Qed.

End EffectFacts.

(** ** What no event does *)

Section HandlerExtras.
Import PyStr Database Main Effect.
Context `{UnicodeCase}.
Local Open Scope Z_scope.

(** X8: an event changes no record but the one of the user it comes from. *)
Theorem handle_other_users (ev : event) (db : users) (j : Z) :
  j <> event_user ev -> fst (handle ev db) !! j = db !! j.
Proof. intros Hj. now rewrite handle_lookup, decide_False. Qed.

Lemma save_then_step_cases (save : user -> user) step t_step u :
  save_then_step save step t_step u = u
  \/ save_then_step save step t_step u = set_step step true t_step (save u).
Proof. unfold save_then_step. case_bool_decide; [now left|now right]. Qed.

Lemma social_effect_cases platform step message_text t_save t_step u :
  social_effect platform step message_text t_save t_step u = u
  \/ social_effect platform step message_text t_save t_step u
     = set_step step true t_step
         (set_social_username platform (strip (lstrip (lit "@") message_text)) t_save u).
Proof.
  unfold social_effect.
  destruct (Validators.validate_username _) as [[[] msg]|]; try now left.
  destruct (verify_social_follow _ _) as [[]|]; try now left.
  apply save_then_step_cases.
Qed.

(** The shapes the record of the user can take after an event. *)
Lemma record_effect_cases (ev : event) (u : user) :
  record_effect ev u = u
  \/ (exists now, is_reset ev /\ record_effect ev u = set_reset now u)
  \/ (exists now, record_effect ev u = set_step (current_step u) true now u)
  \/ (exists platform name t_save t_step,
        record_effect ev u
        = set_step (current_step u) true t_step (set_social_username platform name t_save u))
  \/ (exists address t_save t_step,
        record_effect ev u
        = set_step (current_step u) true t_step (set_bep20_address address t_save u)).
Proof.
  destruct ev as [uid un fn t1 t2|uid data api now|uid text t1 t2|uid now];
    cbn [record_effect is_reset].
  - now left.
  - unfold button_effect.
    destruct (str_eqb data (lit "verify_step_1")).
    { destruct (current_step u =? 1) eqn:Hs; [|now left].
      apply Z.eqb_eq in Hs. right. right. left. exists now. now rewrite Hs. }
    destruct (str_eqb data (lit "verify_telegram")).
    { destruct (current_step u =? 4) eqn:Hs; [|now left].
      destruct (check_channel_membership api); [|now left].
      apply Z.eqb_eq in Hs. right. right. left. exists now. now rewrite Hs. }
    destruct (str_eqb data (lit "complete_process")).
    { destruct (current_step u =? 6) eqn:Hs; [|now left].
      apply Z.eqb_eq in Hs. right. right. left. exists now. now rewrite Hs. }
    destruct (_ || _); [now left|].
    destruct (str_eqb data (lit "restart_process")) eqn:Hr; [|now left].
    right. left. exists now. split; [|reflexivity].
    unfold str_eqb in Hr. now apply bool_decide_eq_true in Hr.
  - unfold message_effect.
    destruct (current_step u =? 2) eqn:H2.
    { apply Z.eqb_eq in H2. rewrite H2.
      destruct (social_effect_cases "twitter" 2 (strip text) t1 t2 u) as [->| ->];
        [now left|]. right. right. right. left. now eexists _, _, _, _. }
    destruct (current_step u =? 3) eqn:H3.
    { apply Z.eqb_eq in H3. rewrite H3.
      destruct (social_effect_cases "instagram" 3 (strip text) t1 t2 u) as [->| ->];
        [now left|]. right. right. right. left. now eexists _, _, _, _. }
    destruct (current_step u =? 5) eqn:H5; [|now left].
    apply Z.eqb_eq in H5. rewrite H5.
    destruct (Validators.validate_bep20_address _) as [[[] msg]|]; try now left.
    destruct (save_then_step_cases (set_bep20_address (strip text) t1) 5 t2 u) as [->| ->];
      [now left|]. right. right. right. right. now eexists _, _, _.
  - right. left. exists now. split; [exact I|reflexivity].
Qed.

(** X9: no event deletes a record, and none changes the [_id], [username],
    [first_name], [created_at] or [screenshots] of a record that exists. *)
Theorem records_persist (ev : event) (db : users) (j : Z) (u : user) :
  db !! j = Some u ->
  exists u',
    fst (handle ev db) !! j = Some u'
    /\ _id u' = _id u /\ username u' = username u /\ first_name u' = first_name u
    /\ created_at u' = created_at u /\ screenshots u' = screenshots u.
Proof.
  intros E. rewrite handle_lookup, E.
  case_decide; [|now exists u].
  exists (record_effect ev u). split; [reflexivity|].
  destruct (record_effect_cases ev u)
    as [->|[(now & _ & ->)|[(now & ->)|[(p & n & t1 & t2 & ->)|(a & t1 & t2 & ->)]]]];
    repeat split.
Qed.

(** X10: apart from [/reset] and the restart button, which send the record
    back to step 1, an event leaves [current_step] where it was or moves it
    forward by exactly one. *)
Theorem current_step_moves_by_one (ev : event) (db : users) (j : Z) (u : user) :
  db !! j = Some u ->
  exists u',
    fst (handle ev db) !! j = Some u'
    /\ (current_step u' = current_step u
        \/ current_step u' = current_step u + 1
        \/ (is_reset ev /\ current_step u' = 1)).
Proof.
  intros E. rewrite handle_lookup, E.
  case_decide; [|exists u; split; [reflexivity|now left]].
  exists (record_effect ev u). split; [reflexivity|].
  destruct (record_effect_cases ev u)
    as [->|[(now & Hr & ->)|[(now & ->)|[(p & n & t1 & t2 & ->)|(a & t1 & t2 & ->)]]]];
    cbn; auto.
Qed.

Lemma verify_after_validate platform name msg :
  Validators.validate_username (PyStr name) = Ok (true, msg) ->
  verify_social_follow platform name = Ok true.
Proof. intros E. unfold verify_social_follow. now rewrite E. Qed.

(** X11: the reply "username received but not verified" is never sent:
    [verify_social_follow] repeats the validation that has just succeeded. *)
Theorem not_verified_never_sent (ev : event) (db : users) (r : reply) :
  In r (snd (handle ev db)) ->
  match r with
  | HandleNotVerified _ _ => False
  | _ => True
  end.
Proof.
  assert (forall p s uid mt t1 t2,
    In r (snd (handle_social p s uid mt t1 t2 db)) ->
    match r with HandleNotVerified _ _ => False | _ => True end) as Hsocial.
  { intros p s uid mt t1 t2. unfold handle_social.
    destruct (Validators.validate_username _) as [[is_valid msg]|] eqn:Ev;
      [|cbn; intuition (subst; exact I)].
    destruct is_valid; [|cbn; intuition (subst; exact I)].
    rewrite (verify_after_validate p _ _ Ev).
    destruct (save_social_username _ _ _ _ _) as [[] db1];
      [|cbn; intuition (subst; exact I)].
    destruct (update_user_step _ _ _ _ _). cbn. intuition (subst; exact I). }
  destruct ev as [uid un fn t1 t2|uid data api now|uid text t1 t2|uid now]; cbn [handle].
  - unfold start. destruct (get_user uid db).
    + destruct (6 <? _); cbn; intuition (subst; exact I).
    + destruct (create_user _ _ _ _ _ _) as [[] db1]; cbn; intuition (subst; exact I).
  - unfold button_handler. destruct (get_user uid db); [|cbn; intuition (subst; exact I)].
    repeat match goal with
           | |- context [if ?b then _ else _] => destruct b
           | |- context [let '(_, _) := ?x in _] => destruct x
           end; cbn; intuition (subst; exact I).
  - unfold handle_message. destruct (get_user uid db); [|cbn; intuition (subst; exact I)].
    destruct (_ =? 2); [apply Hsocial|].
    destruct (_ =? 3); [apply Hsocial|].
    destruct (_ =? 5); [|cbn; intuition (subst; exact I)].
    destruct (Validators.validate_bep20_address _) as [[[] msg]|];
      try (cbn; intuition (subst; exact I)).
    destruct (save_bep20_address _ _ _ _) as [[] db1]; [|cbn; intuition (subst; exact I)].
    destruct (update_user_step _ _ _ _ _). cbn. intuition (subst; exact I).
  - unfold reset_command. destruct (update_one _ _ _) as [m db1].
    destruct (0 <? m)%nat; cbn; intuition (subst; exact I).
Qed.

(** X12: [/start] never touches a record that exists, whatever its step; for
    a user without one it stores a record on step 1 under the user's id,
    with "No username" and "User" in place of a missing or empty name. *)
Theorem start_keeps_progress (db : users) (user_id : Z) (uname fname : option str)
    (t_created t_updated : Z) :
  (is_Some (db !! user_id) -> fst (start user_id uname fname t_created t_updated db) = db)
  /\ (db !! user_id = None ->
      exists u,
        start user_id uname fname t_created t_updated db
        = (<[user_id := u]> db, [Welcome; ShowStep 1])
        /\ current_step u = 1 /\ _id u = user_id
        /\ username u = match uname with
                        | Some (c :: s) => c :: s
                        | _ => lit "No username"
                        end
        /\ first_name u = match fname with
                          | Some (c :: s) => c :: s
                          | _ => lit "User"
                          end).
Proof.
  unfold start, get_user. split.
  - intros [u E]. rewrite E. now destruct (6 <? current_step u).
  - intros E. rewrite E. unfold create_user, insert_one. cbn [_id new_user]. rewrite E.
    eexists. split; [reflexivity|]. repeat split.
Qed.

End HandlerExtras.

(** ** The shape of the records the handlers produce *)

Section Shape.
Import PyStr Database Main Effect.
Context `{UnicodeCase}.
Local Open Scope Z_scope.

Lemma new_user_well_formed user_id uname fname t1 t2 :
  well_formed user_id (new_user user_id uname fname t1 t2).
Proof.
  constructor; cbn; try reflexivity; try lia.
  - intros n. rewrite lookup_empty. now rewrite bool_decide_eq_false_2 by lia.
  - intros p Ht Hi. now rewrite !lookup_insert_ne, lookup_empty by congruence.
Qed.

Lemma set_reset_well_formed j now u : well_formed j u -> well_formed j (set_reset now u).
Proof.
  intros [Hid _ _ _ _ _ _ Hshots]. constructor; cbn; try reflexivity; try lia; try assumption.
  - intros n. rewrite lookup_empty. now rewrite bool_decide_eq_false_2 by lia.
  - intros p Ht Hi. now rewrite !lookup_insert_ne, lookup_empty by congruence.
Qed.

Lemma completed_after_step (steps : gmap Z bool) (k n : Z) :
  (forall n, steps !! n = if bool_decide (1 <= n < k) then Some true else None) ->
  1 <= k ->
  <[k := true]> steps !! n = if bool_decide (1 <= n < k + 1) then Some true else None.
Proof.
  intros Hsteps Hk. destruct (decide (n = k)) as [->|Hn].
  - rewrite lookup_insert_eq. now rewrite bool_decide_eq_true_2 by lia.
  - rewrite lookup_insert_ne by congruence. rewrite Hsteps.
    repeat case_bool_decide; try reflexivity; lia.
Qed.

(** Completing a step that stores nothing: steps 1, 4 and 6. *)
Lemma button_step_well_formed j k now u :
  k = 1 \/ k = 4 \/ k = 6 ->
  current_step u = k -> well_formed j u -> well_formed j (set_step k true now u).
Proof.
  intros Hk Hcur [Hid Hstep Hdone Htw Hig Hpl Haddr Hshots].
  constructor; cbn; try assumption; try lia.
  - intros n. apply completed_after_step; [now rewrite <- Hcur|lia].
  - rewrite Hcur in Htw. destruct Hk as [->|[->| ->]]; exact Htw.
  - rewrite Hcur in Hig. destruct Hk as [->|[->| ->]]; exact Hig.
  - rewrite Hcur in Haddr. destruct Hk as [->|[->| ->]]; exact Haddr.
Qed.

Lemma twitter_step_well_formed j name t_save t_step u :
  current_step u = 2 -> well_formed j u -> Spec.handle_verdict name = Spec.Pass ->
  well_formed j (set_step 2 true t_step (set_social_username "twitter" name t_save u)).
Proof.
  intros Hcur [Hid Hstep Hdone Htw Hig Hpl Haddr Hshots] Hname.
  rewrite Hcur in Hig, Haddr.
  constructor; cbn; try assumption; try lia.
  - intros n. apply completed_after_step; [now rewrite <- Hcur|lia].
  - exists name. split; [apply lookup_insert_eq|exact Hname].
  - now rewrite lookup_insert_ne.
  - intros p Ht Hi. rewrite lookup_insert_ne by congruence. now apply Hpl.
Qed.

Lemma instagram_step_well_formed j name t_save t_step u :
  current_step u = 3 -> well_formed j u -> Spec.handle_verdict name = Spec.Pass ->
  well_formed j (set_step 3 true t_step (set_social_username "instagram" name t_save u)).
Proof.
  intros Hcur [Hid Hstep Hdone Htw Hig Hpl Haddr Hshots] Hname.
  rewrite Hcur in Htw, Haddr.
  constructor; cbn; try assumption; try lia.
  - intros n. apply completed_after_step; [now rewrite <- Hcur|lia].
  - destruct Htw as (h & Hh & Hv). exists h. split; [|exact Hv].
    now rewrite lookup_insert_ne.
  - exists name. split; [apply lookup_insert_eq|exact Hname].
  - intros p Ht Hi. rewrite lookup_insert_ne by congruence. now apply Hpl.
Qed.

Lemma address_step_well_formed j address t_save t_step u :
  current_step u = 5 -> well_formed j u -> Spec.address_accepted address = true ->
  well_formed j (set_step 5 true t_step (set_bep20_address address t_save u)).
Proof.
  intros Hcur [Hid Hstep Hdone Htw Hig Hpl Haddr Hshots] Ha.
  rewrite Hcur in Htw, Hig.
  constructor; cbn; try assumption; try lia.
  - intros n. apply completed_after_step; [now rewrite <- Hcur|lia].
  - now exists address.
Qed.

Lemma social_effect_well_formed j platform step message_text t_save t_step u :
  (platform = "twitter"%string /\ step = 2) \/ (platform = "instagram"%string /\ step = 3) ->
  current_step u = step -> well_formed j u ->
  well_formed j (social_effect platform step message_text t_save t_step u).
Proof.
  intros Hp Hcur Hu. unfold social_effect.
  destruct (Validators.validate_username _) as [[[] msg]|] eqn:Ev; try exact Hu.
  destruct (verify_social_follow _ _) as [[]|]; try exact Hu.
  unfold save_then_step. case_bool_decide; [exact Hu|].
  apply validate_username_accepts in Ev.
  destruct Hp as [[-> ->]|[-> ->]].
  - now apply twitter_step_well_formed.
  - now apply instagram_step_well_formed.
Qed.

Lemma record_effect_well_formed (ev : event) j u :
  well_formed j u -> well_formed j (record_effect ev u).
Proof.
  intros Hu.
  destruct ev as [uid un fn t1 t2|uid data api now|uid text t1 t2|uid now];
    cbn [record_effect].
  - exact Hu.
  - unfold button_effect.
    destruct (str_eqb data (lit "verify_step_1")).
    { destruct (current_step u =? 1) eqn:Hs; [|exact Hu].
      apply Z.eqb_eq in Hs. apply button_step_well_formed; auto. }
    destruct (str_eqb data (lit "verify_telegram")).
    { destruct (current_step u =? 4) eqn:Hs; [|exact Hu].
      destruct (check_channel_membership api); [|exact Hu].
      apply Z.eqb_eq in Hs. apply button_step_well_formed; auto. }
    destruct (str_eqb data (lit "complete_process")).
    { destruct (current_step u =? 6) eqn:Hs; [|exact Hu].
      apply Z.eqb_eq in Hs. apply button_step_well_formed; auto. }
    destruct (_ || _); [exact Hu|].
    destruct (str_eqb data (lit "restart_process")); [|exact Hu].
    now apply set_reset_well_formed.
  - unfold message_effect.
    destruct (current_step u =? 2) eqn:H2.
    { apply Z.eqb_eq in H2. apply social_effect_well_formed; auto. }
    destruct (current_step u =? 3) eqn:H3.
    { apply Z.eqb_eq in H3. apply social_effect_well_formed; auto. }
    destruct (current_step u =? 5) eqn:H5; [|exact Hu].
    apply Z.eqb_eq in H5.
    destruct (Validators.validate_bep20_address _) as [[[] msg]|] eqn:Ev; try exact Hu.
    unfold save_then_step. case_bool_decide; [exact Hu|].
    apply validate_bep20_address_accepts in Ev. rewrite strip_idempotent in Ev.
    now apply address_step_well_formed.
  - now apply set_reset_well_formed.
Qed.

Lemma reachable_well_formed (db : users) :
  reachable db -> forall j u, db !! j = Some u -> well_formed j u.
Proof.
  induction 1 as [|ev db _ IH]; intros j u.
  - now rewrite lookup_empty.
  - rewrite handle_lookup. case_decide as Hj; [|apply IH].
    destruct (db !! j) as [u0|] eqn:E.
    + intros [= <-]. apply record_effect_well_formed, IH, E.
    + destruct ev; cbn [created_by]; try discriminate.
      intros [= <-]. cbn [event_user] in Hj. subst j. apply new_user_well_formed.
Qed.

(** X13: a record the handlers have produced is stored under its own [_id]. *)
Theorem reachable_key_is_id (db : users) (j : Z) (u : user) :
  reachable db -> db !! j = Some u -> _id u = j.
Proof. intros Hr E. exact (wf_id _ _ (reachable_well_formed db Hr j u E)). Qed.

(** X14: progress is linear: [current_step] lies between 1 and 7, and the
    completed steps are exactly the steps below it, each marked [True]; no
    step is skipped and none is marked [False]. *)
Theorem reachable_progress_is_linear (db : users) (j : Z) (u : user) :
  reachable db -> db !! j = Some u ->
  1 <= current_step u <= 7
  /\ (forall n, steps_completed u !! n = Some true <-> 1 <= n < current_step u)
  /\ (forall n, steps_completed u !! n <> Some false).
Proof.
  intros Hr E. destruct (reachable_well_formed db Hr j u E) as [_ Hstep Hdone _ _ _ _ _].
  split; [exact Hstep|]. split; intros n; rewrite Hdone; case_bool_decide.
  - tauto.
  - split; [discriminate|lia].
  - discriminate.
  - discriminate.
Qed.

(** X15: a record holds a wallet address exactly from step 6 on, and the
    address it holds is itself "0x" followed by 40 hexadecimal characters
    and neither the zero nor the dead address. *)
Theorem reachable_wallet_address (db : users) (j : Z) (u : user) :
  reachable db -> db !! j = Some u ->
  (is_Some (bep20_address u) <-> 6 <= current_step u)
  /\ (forall a, bep20_address u = Some a -> Spec.address_accepted a = true).
Proof.
  intros Hr E. destruct (reachable_well_formed db Hr j u E) as [_ _ _ _ _ _ Haddr _].
  case_bool_decide.
  - destruct Haddr as (a & -> & Ha). split; [split; [intros _; lia|intros _; now eexists]|].
    now intros a' [= <-].
  - rewrite Haddr. split; [split; [intros [a [=]]|lia]|discriminate].
Qed.

(** X16: the Twitter handle is stored exactly from step 3 on and the
    Instagram handle exactly from step 4 on; a stored handle passes
    [validate_username]; and [social_usernames] has no other key. *)
Theorem reachable_social_handles (db : users) (j : Z) (u : user) :
  reachable db -> db !! j = Some u ->
  ((exists h, social_usernames u !! "twitter"%string = Some (Some h)) <-> 3 <= current_step u)
  /\ ((exists h, social_usernames u !! "instagram"%string = Some (Some h))
      <-> 4 <= current_step u)
  /\ (forall platform h, social_usernames u !! platform = Some (Some h) ->
        exists msg, Validators.validate_username (PyStr h) = Ok (true, msg))
  /\ (forall platform, is_Some (social_usernames u !! platform) <->
        platform = "twitter"%string \/ platform = "instagram"%string).
Proof.
  intros Hr E. destruct (reachable_well_formed db Hr j u E) as [_ _ _ Htw Hig Hpl _ _].
  assert (forall h, Spec.handle_verdict h = Spec.Pass ->
            exists msg, Validators.validate_username (PyStr h) = Ok (true, msg)) as Hok.
  { intros h Hh. destruct (validate_username_run h) as [msg Em]. exists msg.
    now rewrite Em, Hh. }
  assert (forall (platform : string) (k : Z),
    (if bool_decide (k <= current_step u)
     then exists h, social_usernames u !! platform = Some (Some h)
                    /\ Spec.handle_verdict h = Spec.Pass
     else social_usernames u !! platform = Some None) ->
    ((exists h, social_usernames u !! platform = Some (Some h)) <-> k <= current_step u)
    /\ (forall h, social_usernames u !! platform = Some (Some h) ->
          exists msg, Validators.validate_username (PyStr h) = Ok (true, msg))
    /\ is_Some (social_usernames u !! platform)) as Hplatform.
  { intros platform k Hk. destruct (decide (k <= current_step u)) as [Hs|Hs].
    - rewrite bool_decide_eq_true_2 in Hk by exact Hs. destruct Hk as (h & Hh & Hv).
      split; [split; [intros _; exact Hs|intros _; now exists h]|].
      split; [|now rewrite Hh].
      intros h' Hh'. rewrite Hh in Hh'. injection Hh' as <-. now apply Hok.
    - rewrite bool_decide_eq_false_2 in Hk by exact Hs.
      split; [split; [intros [h Hh]; congruence|intros Hs'; contradiction]|].
      split; [|now rewrite Hk]. intros h Hh. congruence. }
  destruct (Hplatform _ _ Htw) as (Tw1 & Tw2 & Tw3).
  destruct (Hplatform _ _ Hig) as (Ig1 & Ig2 & Ig3).
  split; [exact Tw1|]. split; [exact Ig1|]. split.
  - intros platform h Hh.
    destruct (decide (platform = "twitter"%string)) as [->|Ht]; [now apply Tw2|].
    destruct (decide (platform = "instagram"%string)) as [->|Hi]; [now apply Ig2|].
    rewrite Hpl in Hh by assumption. discriminate.
  - intros platform. split.
    + intros [x Hx].
      destruct (decide (platform = "twitter"%string)) as [->|Ht]; [now left|].
      destruct (decide (platform = "instagram"%string)) as [->|Hi]; [now right|].
      rewrite Hpl in Hx by assumption. discriminate.
    + intros [->| ->]; assumption.
Qed.

(** X17: no handler stores a screenshot: the [screenshots] of every record
    the handlers have produced is empty. *)
Theorem reachable_no_screenshots (db : users) (j : Z) (u : user) :
  reachable db -> db !! j = Some u -> screenshots u = [].
Proof. intros Hr E. exact (wf_screenshots _ _ (reachable_well_formed db Hr j u E)). Qed.

End Shape.

(** ** Valid input moves the record forward *)

Section Progress.
Import PyStr Database Main Effect Stats.
Context `{UnicodeCase}.
Local Open Scope Z_scope.

Local Ltac literal_data :=
  repeat match goal with
         | |- context [str_eqb (lit ?a) (lit ?b)] =>
             let v := eval vm_compute in (str_eqb (lit a) (lit b)) in
             change (str_eqb (lit a) (lit b)) with v
         end;
  cbn [orb].

Lemma set_social_username_changes platform name now u :
  social_usernames u !! platform <> Some (Some name) ->
  set_social_username platform name now u <> u.
Proof.
  intros Hne E. apply Hne. rewrite <- E at 1. cbn. apply lookup_insert_eq.
Qed.

Lemma set_bep20_address_changes address now u :
  bep20_address u <> Some address -> set_bep20_address address now u <> u.
Proof. intros Hne E. apply Hne. now rewrite <- E at 1. Qed.

Lemma save_then_step_changed (save : user -> user) step t_step u :
  save u <> u -> save_then_step save step t_step u = set_step step true t_step (save u).
Proof. intros Hne. unfold save_then_step. now rewrite bool_decide_eq_false_2. Qed.

(** A handle that passes, sent by a user whose record has no handle yet for
    the platform of its step. *)
Lemma handle_social_accepted platform step user_id message_text t_save t_step
    (db : users) u msg :
  db !! user_id = Some u ->
  social_usernames u !! platform = Some None ->
  Validators.validate_username (PyStr (strip (lstrip (lit "@") message_text)))
  = Ok (true, msg) ->
  snd (handle_social platform step user_id message_text t_save t_step db)
  = [HandleVerified platform (strip (lstrip (lit "@") message_text)); ShowStep (step + 1)]
  /\ social_effect platform step message_text t_save t_step u
     = set_step step true t_step
         (set_social_username platform (strip (lstrip (lit "@") message_text)) t_save u).
Proof.
  intros E Hnone Ev. split.
  - unfold handle_social. rewrite Ev, (verify_after_validate _ _ _ Ev).
    unfold save_social_username. rewrite (update_one_found _ _ _ _ E).
    rewrite bool_decide_eq_false_2
      by (apply set_social_username_changes; rewrite Hnone; discriminate).
    cbn [Nat.ltb Nat.leb]. now destruct (update_user_step _ _ _ _ _).
  - unfold social_effect. rewrite Ev, (verify_after_validate _ _ _ Ev).
    apply save_then_step_changed, set_social_username_changes.
    rewrite Hnone. discriminate.
Qed.

Lemma no_handle_before_step (db : users) j u (platform : string) (step : Z) :
  reachable db -> db !! j = Some u ->
  (platform = "twitter"%string /\ step = 2) \/ (platform = "instagram"%string /\ step = 3) ->
  current_step u = step ->
  social_usernames u !! platform = Some None.
Proof.
  intros Hr E Hp Hcur.
  destruct (reachable_well_formed db Hr j u E) as [_ _ _ Htw Hig _ _ _].
  rewrite Hcur in Htw, Hig. now destruct Hp as [[-> ->]|[-> ->]].
Qed.

(** X18: at steps 2 and 3 a text whose handle passes [validate_username] is
    always stored: the record moves to the next step with the handle under
    the platform of the step and the step marked completed, and the saving
    error is not met; a text whose handle fails changes nothing and is
    answered with the message of the validator. *)
Theorem handle_text_decides_step (db : users) (user_id : Z) (u : user) (text : str)
    (t_save t_step : Z) (platform : string) (step : Z) :
  reachable db ->
  db !! user_id = Some u ->
  (platform = "twitter"%string /\ step = 2) \/ (platform = "instagram"%string /\ step = 3) ->
  current_step u = step ->
  (forall msg,
      Validators.validate_username (PyStr (strip (lstrip (lit "@") (strip text))))
      = Ok (true, msg) ->
      snd (handle_message user_id text t_save t_step db)
      = [HandleVerified platform (strip (lstrip (lit "@") (strip text))); ShowStep (step + 1)]
      /\ exists u',
           fst (handle_message user_id text t_save t_step db) !! user_id = Some u'
           /\ current_step u' = step + 1
           /\ steps_completed u' !! step = Some true
           /\ social_usernames u' !! platform
              = Some (Some (strip (lstrip (lit "@") (strip text)))))
  /\ (forall msg,
        Validators.validate_username (PyStr (strip (lstrip (lit "@") (strip text))))
        = Ok (false, msg) ->
        handle_message user_id text t_save t_step db = (db, [InvalidHandle platform msg])).
Proof.
  intros Hr E Hp Hcur.
  pose proof (no_handle_before_step db user_id u platform step Hr E Hp Hcur) as Hnone.
  split.
  - intros msg Ev.
    destruct (handle_social_accepted platform step user_id (strip text) t_save t_step
                db u msg E Hnone Ev) as [Hreply Heffect].
    split.
    + unfold handle_message, get_user. rewrite E, Hcur.
      destruct Hp as [[-> ->]|[-> ->]]; exact Hreply.
    + rewrite handle_message_lookup, decide_True, E by reflexivity.
      eexists. split; [reflexivity|].
      unfold message_effect. rewrite Hcur.
      destruct Hp as [[-> ->]|[-> ->]]; cbn [Z.eqb Pos.eqb]; rewrite Heffect; cbn;
        (split; [reflexivity|]); (split; apply lookup_insert_eq).
  - intros msg Ev. unfold handle_message, get_user. rewrite E, Hcur.
    destruct Hp as [[-> ->]|[-> ->]]; cbn [Z.eqb Pos.eqb]; unfold handle_social;
      now rewrite Ev.
Qed.

(** X19: at step 5 a text that passes [validate_bep20_address] is always
    stored, trimmed, as the wallet address and the record moves to step 6; a
    text that fails changes nothing and is answered with the message of the
    validator. *)
Theorem address_text_decides_step (db : users) (user_id : Z) (u : user) (text : str)
    (t_save t_step : Z) :
  reachable db ->
  db !! user_id = Some u ->
  current_step u = 5 ->
  (forall msg,
      Validators.validate_bep20_address (PyStr (strip text)) = Ok (true, msg) ->
      snd (handle_message user_id text t_save t_step db)
      = [AddressSaved (strip text); ShowStep 6]
      /\ exists u',
           fst (handle_message user_id text t_save t_step db) !! user_id = Some u'
           /\ current_step u' = 6
           /\ steps_completed u' !! 5 = Some true
           /\ bep20_address u' = Some (strip text))
  /\ (forall msg,
        Validators.validate_bep20_address (PyStr (strip text)) = Ok (false, msg) ->
        handle_message user_id text t_save t_step db = (db, [InvalidAddress msg])).
Proof.
  intros Hr E Hcur.
  assert (bep20_address u = None) as Hnone.
  { destruct (reachable_well_formed db Hr user_id u E) as [_ _ _ _ _ _ Haddr _].
    now rewrite Hcur in Haddr. }
  assert (set_bep20_address (strip text) t_save u <> u) as Hchange.
  { apply set_bep20_address_changes. rewrite Hnone. discriminate. }
  split.
  - intros msg Ev. split.
    + unfold handle_message, get_user. rewrite E, Hcur. cbn [Z.eqb Pos.eqb].
      rewrite Ev. unfold save_bep20_address. rewrite (update_one_found _ _ _ _ E).
      rewrite bool_decide_eq_false_2 by exact Hchange.
      cbn [Nat.ltb Nat.leb]. now destruct (update_user_step _ _ _ _ _).
    + rewrite handle_message_lookup, decide_True, E by reflexivity.
      eexists. split; [reflexivity|].
      unfold message_effect. rewrite Hcur. cbn [Z.eqb Pos.eqb]. rewrite Ev.
      rewrite save_then_step_changed by exact Hchange. cbn.
      split; [reflexivity|]. split; [apply lookup_insert_eq|reflexivity].
  - intros msg Ev. unfold handle_message, get_user. rewrite E, Hcur. cbn [Z.eqb Pos.eqb].
    now rewrite Ev.
Qed.

Lemma count_insert_over (query : user -> Prop) `{forall u, Decision (query u)}
    (db : users) (j : Z) (u u' : user) :
  db !! j = Some u -> ~ query u -> query u' ->
  count_documents query (<[j := u']> db) = S (count_documents query db).
Proof.
  intros E Hu Hu'. unfold count_documents.
  rewrite map_filter_insert_True by exact Hu'.
  apply map_size_insert_None. apply map_lookup_filter_None_2. right.
  intros v Ev. rewrite E in Ev. now injection Ev as <-.
Qed.

Lemma set_step_changes step now u :
  current_step u = step -> set_step step true now u <> u.
Proof. intros Hcur E. apply (f_equal current_step) in E. cbn in E. lia. Qed.

(** X20: pressing "complete_process" on step 6 completes the record: it moves
    to step 7 with step 6 marked, and [completed_users] grows by one; but the
    handler then raises while it builds the confirmation ([TypeError] if the
    record has no wallet address, else [KeyError] for the missing 'website'
    link), so the confirmation is never sent. *)
Theorem complete_process_completes (db : users) (user_id : Z) (u : user)
    (api : get_chat_member) (now : Z) :
  db !! user_id = Some u ->
  current_step u = 6 ->
  let after := button_handler user_id (lit "complete_process") api now db in
  snd after
  = [Uncaught (match bep20_address u with None => TypeError | Some _ => KeyError end)]
  /\ (exists u', fst after !! user_id = Some u'
                 /\ current_step u' = 7 /\ steps_completed u' !! 6 = Some true)
  /\ completed_users (get_user_stats (fst after))
     = S (completed_users (get_user_stats db))
  /\ total_users (get_user_stats (fst after)) = total_users (get_user_stats db).
Proof.
  intros E Hcur. cbv zeta.
  assert (button_handler user_id (lit "complete_process") api now db
          = (<[user_id := set_step 6 true now u]> db,
             [Uncaught (match bep20_address u with None => TypeError | Some _ => KeyError end)]))
    as ->.
  { unfold button_handler, get_user. rewrite E, Hcur. literal_data. cbn [Z.eqb Pos.eqb].
    unfold update_user_step. rewrite (update_one_found _ _ _ _ E).
    rewrite bool_decide_eq_false_2 by now apply set_step_changes.
    cbn [fst snd]. unfold summary_error, get_user. now rewrite lookup_insert_eq. }
  cbn [fst snd]. split; [reflexivity|]. split.
  { eexists. rewrite lookup_insert_eq. split; [reflexivity|]. cbn.
    split; [reflexivity|apply lookup_insert_eq]. }
  unfold get_user_stats. cbn [completed_users total_users]. split.
  - apply (count_insert_over _ db user_id u); [exact E|lia|cbn; lia].
  - rewrite !count_all. apply map_size_insert_Some. now rewrite E.
Qed.

End Progress.

Section EndToEnd.
Import PyStr Database Main Effect.
Context `{UnicodeCase}.
Local Open Scope Z_scope.

Local Ltac literal_data :=
  repeat match goal with
         | |- context [str_eqb (lit ?a) (lit ?b)] =>
             let v := eval vm_compute in (str_eqb (lit a) (lit b)) in
             change (str_eqb (lit a) (lit b)) with v
         end;
  cbn [orb].

Lemma social_effect_accepted platform step message_text t_save t_step u msg :
  social_usernames u !! platform = Some None ->
  Validators.validate_username (PyStr (strip (lstrip (lit "@") message_text)))
  = Ok (true, msg) ->
  social_effect platform step message_text t_save t_step u
  = set_step step true t_step
      (set_social_username platform (strip (lstrip (lit "@") message_text)) t_save u).
Proof.
  intros Hnone Ev. unfold social_effect. rewrite Ev, (verify_after_validate _ _ _ Ev).
  apply save_then_step_changed, set_social_username_changes.
  rewrite Hnone. discriminate.
Qed.

(** X21: the whole course: a new user who starts the bot, confirms the
    download, sends a Twitter and an Instagram handle that pass, verifies the
    channel as a member, sends an address that passes and presses the final
    button ends on step 7, with the three inputs stored as they were
    normalised and all six steps marked completed. *)
Theorem valid_inputs_reach_completion (user_id : Z) (uname fname : option str)
    (twitter instagram address : str) (api1 api4 api6 : get_chat_member) (t : nat -> Z) :
  (exists msg, Validators.validate_username
                 (PyStr (strip (lstrip (lit "@") (strip twitter)))) = Ok (true, msg)) ->
  (exists msg, Validators.validate_username
                 (PyStr (strip (lstrip (lit "@") (strip instagram)))) = Ok (true, msg)) ->
  (exists msg, Validators.validate_bep20_address (PyStr (strip address)) = Ok (true, msg)) ->
  check_channel_membership api4 = true ->
  exists u,
    run [ StartCommand user_id uname fname (t 0%nat) (t 1%nat);
          ButtonPress user_id (lit "verify_step_1") api1 (t 2%nat);
          TextMessage user_id twitter (t 3%nat) (t 4%nat);
          TextMessage user_id instagram (t 5%nat) (t 6%nat);
          ButtonPress user_id (lit "verify_telegram") api4 (t 7%nat);
          TextMessage user_id address (t 8%nat) (t 9%nat);
          ButtonPress user_id (lit "complete_process") api6 (t 10%nat) ] ∅ !! user_id
    = Some u
    /\ current_step u = 7
    /\ (forall n, 1 <= n <= 6 -> steps_completed u !! n = Some true)
    /\ social_usernames u !! "twitter"%string
       = Some (Some (strip (lstrip (lit "@") (strip twitter))))
    /\ social_usernames u !! "instagram"%string
       = Some (Some (strip (lstrip (lit "@") (strip instagram))))
    /\ bep20_address u = Some (strip address).
Proof.
  intros [m2 E2] [m3 E3] [m5 E5] Hmember.
  unfold run. cbn [fold_left].
  repeat (rewrite handle_lookup; cbn [event_user]; rewrite decide_True by reflexivity).
  rewrite lookup_empty. cbn [created_by record_effect].
  set (u0 := new_user _ _ _ _ _).
  assert (button_effect (lit "verify_step_1") api1 (t 2%nat) u0 = set_step 1 true (t 2%nat) u0)
    as -> by (unfold button_effect; literal_data; reflexivity).
  set (u1 := set_step 1 true _ u0).
  assert (message_effect twitter (t 3%nat) (t 4%nat) u1
          = set_step 2 true (t 4%nat)
              (set_social_username "twitter" (strip (lstrip (lit "@") (strip twitter)))
                 (t 3%nat) u1)) as ->.
  { unfold message_effect. change (current_step u1 =? 2) with true. cbv iota.
    now apply (social_effect_accepted _ _ _ _ _ _ m2). }
  set (u2 := set_step 2 true _ _).
  assert (message_effect instagram (t 5%nat) (t 6%nat) u2
          = set_step 3 true (t 6%nat)
              (set_social_username "instagram" (strip (lstrip (lit "@") (strip instagram)))
                 (t 5%nat) u2)) as ->.
  { unfold message_effect. change (current_step u2 =? 2) with false.
    change (current_step u2 =? 3) with true. cbv iota.
    apply (social_effect_accepted _ _ _ _ _ _ m3); [|exact E3].
    cbn. now rewrite lookup_insert_ne. }
  set (u3 := set_step 3 true _ _).
  assert (button_effect (lit "verify_telegram") api4 (t 7%nat) u3
          = set_step 4 true (t 7%nat) u3) as ->.
  { unfold button_effect. literal_data. change (current_step u3 =? 4) with true.
    cbv iota. now rewrite Hmember. }
  set (u4 := set_step 4 true _ u3).
  assert (message_effect address (t 8%nat) (t 9%nat) u4
          = set_step 5 true (t 9%nat) (set_bep20_address (strip address) (t 8%nat) u4))
    as ->.
  { unfold message_effect. change (current_step u4 =? 2) with false.
    change (current_step u4 =? 3) with false. change (current_step u4 =? 5) with true.
    cbv iota. rewrite E5. apply save_then_step_changed, set_bep20_address_changes.
    discriminate. }
  set (u5 := set_step 5 true _ _).
  assert (button_effect (lit "complete_process") api6 (t 10%nat) u5
          = set_step 6 true (t 10%nat) u5) as ->.
  { unfold button_effect. literal_data. reflexivity. }
  eexists. split; [reflexivity|]. cbn.
  split; [reflexivity|]. split.
  - intros n Hn.
    assert (n = 1 \/ n = 2 \/ n = 3 \/ n = 4 \/ n = 5 \/ n = 6) as Hcases by lia.
    destruct Hcases as [->|[->|[->|[->|[->| ->]]]]]; reflexivity.
  - split; [|split]; [| |reflexivity].
    + rewrite lookup_insert_ne by discriminate. apply lookup_insert_eq.
    + apply lookup_insert_eq.
Qed.

End EndToEnd.

(** ** Screens, commands and the final state *)

Section ScreensFacts.
Import PyStr Database Main Effect Config Screens.
Context `{UnicodeCase}.
Local Open Scope Z_scope.

Local Ltac literal_data :=
  repeat match goal with
         | |- context [str_eqb (lit ?a) (lit ?b)] =>
             let v := eval vm_compute in (str_eqb (lit a) (lit b)) in
             change (str_eqb (lit a) (lit b)) with v
         end;
  cbn [orb].

(** A button that [button_handler] knows and does not turn away. *)
Local Ltac in_step E Hcur :=
  unfold button_handler, get_user; rewrite E, Hcur; literal_data;
  cbn [Z.eqb Pos.eqb];
  repeat match goal with
         | |- context [if ?b then _ else _] => destruct b
         | |- context [let '(_, _) := ?x in _] => destruct x
         end;
  cbn [snd]; (split; [discriminate|intros k [Hk|[Hk|[Hk|[]]]]; discriminate])
  || (split; [discriminate|intros k [Hk|[Hk|[]]]; discriminate])
  || (split; [discriminate|intros k [Hk|[]]; discriminate]).

(** X22: for each of the steps 1 to 6 the screen of the step is built without
    error, and every callback button on it, pressed by a user who is on that
    step, is one [button_handler] knows and does not answer with "not on
    this step". *)
Theorem shown_buttons_are_in_step (db : users) (user_id : Z) (u : user) (step : Z)
    (api : get_chat_member) (now : Z) :
  db !! user_id = Some u ->
  1 <= step <= 6 ->
  current_step u = step ->
  exists kb,
    show_step step = Ok (StepScreen step true kb)
    /\ show_step_callback step = Ok (StepScreen step true kb)
    /\ Forall (fun data =>
                 snd (button_handler user_id data api now db) <> []
                 /\ forall k, ~ In (NotOnStep k) (snd (button_handler user_id data api now db)))
         (callbacks kb).
Proof.
  intros E Hstep Hcur.
  assert (step = 1 \/ step = 2 \/ step = 3 \/ step = 4 \/ step = 5 \/ step = 6)
    as Hcases by lia.
  destruct Hcases as [->|[->|[->|[->|[->| ->]]]]];
    (eexists; split; [reflexivity|]; split; [reflexivity|]);
    cbn [callbacks flat_map app];
    repeat (apply List.Forall_cons; [in_step E Hcur|]); apply List.Forall_nil.
Qed.

Lemma website_missing : getitem SOCIAL_LINKS "website" = Raise KeyError.
Proof. reflexivity. Qed.

(** X23: [/status] answers a user without a record with the request to use
    /start; for every user with a record it raises [KeyError] before it sends
    anything, as [/help] always does: both build a keyboard from
    [SOCIAL_LINKS['website']], which config.py does not define. *)
Theorem status_and_help_raise (db : users) (user_id : Z) (api : get_chat_member) :
  status_command user_id api db
  = match db !! user_id with
    | None => PleaseStart
    | Some _ => CommandRaised KeyError
    end
  /\ help_command = CommandRaised KeyError.
Proof.
  split; [|reflexivity].
  unfold status_command, get_user. destruct (db !! user_id); [|reflexivity].
  now rewrite website_missing.
Qed.

(** X24: once a record is past step 6 nothing but [/reset] or the restart
    button changes it: every other button, every text and [/start] leave it
    as it is. *)
Theorem completion_is_final (ev : event) (db : users) (j : Z) (u : user) :
  db !! j = Some u ->
  6 < current_step u ->
  ~ is_reset ev ->
  fst (handle ev db) !! j = Some u.
Proof.
  intros E Hcur Hreset. rewrite handle_lookup, E. case_decide; [|reflexivity].
  f_equal.
  destruct ev as [uid un fn t1 t2|uid data api now|uid text t1 t2|uid now];
    cbn [record_effect is_reset] in *.
  - reflexivity.
  - unfold button_effect.
    rewrite (proj2 (Z.eqb_neq (current_step u) 1)) by lia.
    rewrite (proj2 (Z.eqb_neq (current_step u) 4)) by lia.
    rewrite (proj2 (Z.eqb_neq (current_step u) 6)) by lia.
    destruct (str_eqb data (lit "restart_process")) eqn:Hr.
    { exfalso. apply Hreset. unfold str_eqb in Hr. now apply bool_decide_eq_true in Hr. }
    repeat match goal with
           | |- context [if ?b then _ else _] => destruct b
           end; reflexivity.
  - unfold message_effect.
    rewrite (proj2 (Z.eqb_neq (current_step u) 2)) by lia.
    rewrite (proj2 (Z.eqb_neq (current_step u) 3)) by lia.
    now rewrite (proj2 (Z.eqb_neq (current_step u) 5)) by lia.
  - now exfalso.
Qed.

(** X25: [/reset] answers a user without a record "nothing to reset" and
    changes nothing; for a record that has moved past step 1 it answers
    "reset done" and puts the record on step 1; and resetting again leaves
    the collection as one reset leaves it. *)
Theorem reset_command_cases (db : users) (user_id : Z) (now later : Z) :
  (db !! user_id = None -> reset_command user_id now db = (db, [NothingToReset]))
  /\ (forall u, db !! user_id = Some u -> current_step u <> 1 ->
        reset_command user_id now db = (<[user_id := set_reset now u]> db, [ResetDone]))
  /\ fst (reset_command user_id later (fst (reset_command user_id now db)))
     = fst (reset_command user_id later db).
Proof.
  split; [|split].
  - intros E. unfold reset_command. now rewrite update_one_missing.
  - intros u E Hcur. unfold reset_command. rewrite (update_one_found _ _ _ _ E).
    rewrite bool_decide_eq_false_2; [reflexivity|].
    intros Es. apply (f_equal current_step) in Es. cbn in Es. congruence.
  - apply map_eq. intros j. rewrite !reset_command_lookup.
    case_decide; [|reflexivity]. now destruct (db !! j).
Qed.

End ScreensFacts.

(** ** The added properties on the sample run *)

Section CourseRun.
Import PyStr Database Main Effect Stats Screens Sample Course.
Local Open Scope Z_scope.
#[local] Existing Instance ascii_case.

Lemma run_reachable (evs : list event) (db : users) : reachable db -> reachable (run evs db).
Proof.
  revert db. induction evs as [|ev evs IH]; intros db Hdb; [exact Hdb|].
  cbn. apply IH. now constructor.
Defined.

Lemma db_after_reachable (n : nat) : reachable (db_after n).
Proof. apply run_reachable. constructor. Defined.

Lemma db_after_2 : db_after 2 !! 7 = Some (record_after 2).
Proof. vm_compute. reflexivity. Defined.

Lemma db_after_3 : db_after 3 !! 7 = Some (record_after 3).
Proof. vm_compute. reflexivity. Defined.

Lemma db_after_4 : db_after 4 !! 7 = Some (record_after 4).
Proof. vm_compute. reflexivity. Defined.

Lemma db_after_5 : db_after 5 !! 7 = Some (record_after 5).
Proof. vm_compute. reflexivity. Defined.

Lemma db_after_6 : db_after 6 !! 7 = Some (record_after 6).
Proof. vm_compute. reflexivity. Defined.

Lemma db_after_7 : db_after 7 !! 7 = Some (record_after 7).
Proof. vm_compute. reflexivity. Defined.

Lemma validate_bep20_address_pretrimmed_witness :
  strip (lit "  0x742d35Cc6634C0532925a3b8D4B29E3f5fCffd52 ") <> []
  /\ Validators.validate_bep20_address
       (PyStr (strip (lit "  0x742d35Cc6634C0532925a3b8D4B29E3f5fCffd52 ")))
     = Validators.validate_bep20_address
         (PyStr (lit "  0x742d35Cc6634C0532925a3b8D4B29E3f5fCffd52 ")).
Proof.
  split; [vm_compute; discriminate|].
  apply (proj2 (validate_bep20_address_pretrimmed
                  (lit "  0x742d35Cc6634C0532925a3b8D4B29E3f5fCffd52 "))).
  vm_compute. discriminate.
Defined.

Lemma validate_screenshot_any_case_witness :
  0 <= 5242880
  /\ Forall (fun c => (c < 0x80)%N) (lit ".JPG")
  /\ In (map ascii_lower (lit ".JPG")) Validators.valid_extensions
  /\ Validators.validate_screenshot (PyInt 0) (PyStr (lit "Photo" ++ lit ".JPG"))
     = Ok (true, lit "Valid screenshot").
Proof.
  assert (Forall (fun c => (c < 0x80)%N) (lit ".JPG")) as Hascii
    by (repeat constructor).
  assert (In (map ascii_lower (lit ".JPG")) Validators.valid_extensions) as Hext
    by (left; reflexivity).
  split; [lia|]. split; [exact Hascii|]. split; [exact Hext|].
  apply (validate_screenshot_any_case 0 (lit "Photo") (lit ".JPG")); [lia|exact Hascii|exact Hext].
Defined.

Lemma writes_need_a_record_witness :
  (∅ : users) !! 7 = None
  /\ update_user_step 100 7 1 true ∅ = (false, ∅)
  /\ add_screenshot 100 100 7 (lit "file") (lit "a.png") ∅ = (false, ∅).
Proof.
  split; [apply lookup_empty|].
  destruct (writes_need_a_record ∅ 7 (lookup_empty 7)) as (Hstep & _ & _ & Hshot).
  split; [apply Hstep|apply Hshot].
Defined.

Lemma add_screenshot_appends_witness :
  db_after 3 !! 7 = Some (record_after 3)
  /\ exists u',
       add_screenshot 200 201 7 (lit "file") (lit "a.png") (db_after 3)
       = (true, <[7 := u']> (db_after 3))
       /\ screenshots u'
          = screenshots (record_after 3) ++ [mkScreenshot (lit "file") (lit "a.png") 200].
Proof.
  split; [exact db_after_3|].
  destruct (add_screenshot_appends (db_after 3) 7 (record_after 3) 200 201
              (lit "file") (lit "a.png") db_after_3) as (u' & Hadd & Hshots & _).
  exists u'. split; assumption.
Defined.

Lemma save_social_username_only_witness :
  plain_field "twitter" = true
  /\ db_after 4 !! 7 = Some (record_after 4)
  /\ exists u',
       snd (save_social_username 200 7 "twitter" (lit "johnny") (db_after 4)) !! 7 = Some u'
       /\ social_usernames u' !! "twitter"%string = Some (Some (lit "johnny"))
       /\ social_usernames u' !! "instagram"%string
          = social_usernames (record_after 4) !! "instagram"%string.
Proof.
  split; [reflexivity|]. split; [exact db_after_4|].
  destruct (save_social_username_only (db_after 4) 7 200 "twitter" (lit "johnny")
              (record_after 4) eq_refl db_after_4) as (u' & Hlook & Hset & Hother & _).
  exists u'. split; [exact Hlook|]. split; [exact Hset|]. now apply Hother.
Defined.

Lemma handle_other_users_witness :
  7 <> event_user (ResetCommand 8 200)
  /\ fst (handle (ResetCommand 8 200) (db_after 3)) !! 7 = db_after 3 !! 7.
Proof.
  split; [discriminate|].
  apply (handle_other_users (ResetCommand 8 200) (db_after 3) 7). discriminate.
Defined.

Lemma records_persist_witness :
  db_after 3 !! 7 = Some (record_after 3)
  /\ exists u',
       fst (handle (ResetCommand 7 200) (db_after 3)) !! 7 = Some u'
       /\ username u' = username (record_after 3)
       /\ created_at u' = created_at (record_after 3).
Proof.
  split; [exact db_after_3|].
  destruct (records_persist (ResetCommand 7 200) (db_after 3) 7 (record_after 3) db_after_3)
    as (u' & Hlook & _ & Hname & _ & Hcreated & _).
  exists u'. repeat split; assumption.
Defined.

Lemma current_step_moves_by_one_witness :
  db_after 3 !! 7 = Some (record_after 3)
  /\ exists u',
       fst (handle (TextMessage 7 (lit "john.crypto") 104 105) (db_after 3)) !! 7 = Some u'
       /\ (current_step u' = current_step (record_after 3)
           \/ current_step u' = current_step (record_after 3) + 1
           \/ (is_reset (TextMessage 7 (lit "john.crypto") 104 105) /\ current_step u' = 1)).
Proof.
  split; [exact db_after_3|].
  exact (current_step_moves_by_one (TextMessage 7 (lit "john.crypto") 104 105)
           (db_after 3) 7 (record_after 3) db_after_3).
Defined.

Lemma not_verified_never_sent_witness :
  In (HandleVerified "instagram" (lit "john.crypto"))
    (snd (handle (TextMessage 7 (lit "john.crypto") 104 105) (db_after 3)))
  /\ True.
Proof.
  assert (In (HandleVerified "instagram" (lit "john.crypto"))
            (snd (handle (TextMessage 7 (lit "john.crypto") 104 105) (db_after 3)))) as Hin
    by (vm_compute; left; reflexivity).
  split; [exact Hin|].
  exact (not_verified_never_sent _ _ _ Hin).
Defined.

Lemma reachable_key_is_id_witness :
  reachable (db_after 3) /\ db_after 3 !! 7 = Some (record_after 3)
  /\ _id (record_after 3) = 7.
Proof.
  split; [apply db_after_reachable|]. split; [exact db_after_3|].
  exact (reachable_key_is_id (db_after 3) 7 (record_after 3) (db_after_reachable 3) db_after_3).
Defined.

Lemma reachable_progress_is_linear_witness :
  reachable (db_after 5) /\ db_after 5 !! 7 = Some (record_after 5)
  /\ 1 <= current_step (record_after 5) <= 7.
Proof.
  split; [apply db_after_reachable|]. split; [exact db_after_5|].
  exact (proj1 (reachable_progress_is_linear (db_after 5) 7 (record_after 5)
                  (db_after_reachable 5) db_after_5)).
Defined.

Lemma reachable_wallet_address_witness :
  reachable (db_after 6) /\ db_after 6 !! 7 = Some (record_after 6)
  /\ (is_Some (bep20_address (record_after 6)) <-> 6 <= current_step (record_after 6)).
Proof.
  split; [apply db_after_reachable|]. split; [exact db_after_6|].
  exact (proj1 (reachable_wallet_address (db_after 6) 7 (record_after 6)
                  (db_after_reachable 6) db_after_6)).
Defined.

Lemma reachable_social_handles_witness :
  reachable (db_after 4) /\ db_after 4 !! 7 = Some (record_after 4)
  /\ ((exists h, social_usernames (record_after 4) !! "twitter"%string = Some (Some h))
      <-> 3 <= current_step (record_after 4)).
Proof.
  split; [apply db_after_reachable|]. split; [exact db_after_4|].
  exact (proj1 (reachable_social_handles (db_after 4) 7 (record_after 4)
                  (db_after_reachable 4) db_after_4)).
Defined.

Lemma reachable_no_screenshots_witness :
  reachable (db_after 7) /\ db_after 7 !! 7 = Some (record_after 7)
  /\ screenshots (record_after 7) = [].
Proof.
  split; [apply db_after_reachable|]. split; [exact db_after_7|].
  exact (reachable_no_screenshots (db_after 7) 7 (record_after 7)
           (db_after_reachable 7) db_after_7).
Defined.

Lemma handle_text_decides_step_witness :
  reachable (db_after 2) /\ db_after 2 !! 7 = Some (record_after 2)
  /\ current_step (record_after 2) = 2
  /\ snd (handle_message 7 (lit " @john_crypto ") 102 103 (db_after 2))
     = [HandleVerified "twitter" (strip (lstrip (lit "@") (strip (lit " @john_crypto "))));
        ShowStep (2 + 1)].
Proof.
  split; [apply db_after_reachable|]. split; [exact db_after_2|]. split; [reflexivity|].
  apply (proj1 (handle_text_decides_step (db_after 2) 7 (record_after 2)
                  (lit " @john_crypto ") 102 103 "twitter" 2
                  (db_after_reachable 2) db_after_2 (or_introl (conj eq_refl eq_refl))
                  eq_refl) (lit "Valid username")).
  vm_compute. reflexivity.
Defined.

Lemma address_text_decides_step_witness :
  reachable (db_after 5) /\ db_after 5 !! 7 = Some (record_after 5)
  /\ current_step (record_after 5) = 5
  /\ snd (handle_message 7 wallet 107 108 (db_after 5))
     = [AddressSaved (strip wallet); ShowStep 6].
Proof.
  split; [apply db_after_reachable|]. split; [exact db_after_5|]. split; [reflexivity|].
  apply (proj1 (address_text_decides_step (db_after 5) 7 (record_after 5) wallet 107 108
                  (db_after_reachable 5) db_after_5 eq_refl) (lit "Valid BEP20 address")).
  vm_compute. reflexivity.
Defined.

Lemma complete_process_completes_witness :
  db_after 6 !! 7 = Some (record_after 6)
  /\ current_step (record_after 6) = 6
  /\ snd (button_handler 7 (lit "complete_process") (Member MEMBER) 109 (db_after 6))
     = [Uncaught KeyError].
Proof.
  split; [exact db_after_6|]. split; [reflexivity|].
  exact (proj1 (complete_process_completes (db_after 6) 7 (record_after 6)
                  (Member MEMBER) 109 db_after_6 eq_refl)).
Defined.

Lemma valid_inputs_reach_completion_witness :
  exists u,
    run [ StartCommand 7 (Some (lit "john")) None (clock 0) (clock 1);
          ButtonPress 7 (lit "verify_step_1") (Fails Forbidden) (clock 2);
          TextMessage 7 (lit "@john_crypto") (clock 3) (clock 4);
          TextMessage 7 (lit "john.crypto") (clock 5) (clock 6);
          ButtonPress 7 (lit "verify_telegram") (Member OWNER) (clock 7);
          TextMessage 7 wallet (clock 8) (clock 9);
          ButtonPress 7 (lit "complete_process") (Fails Forbidden) (clock 10) ] ∅ !! 7
    = Some u
    /\ current_step u = 7.
Proof.
  destruct (valid_inputs_reach_completion 7 (Some (lit "john")) None
              (lit "@john_crypto") (lit "john.crypto") wallet
              (Fails Forbidden) (Member OWNER) (Fails Forbidden) clock)
    as (u & Hu & Hstep & _).
  - exists (lit "Valid username"). vm_compute. reflexivity.
  - exists (lit "Valid username"). vm_compute. reflexivity.
  - exists (lit "Valid BEP20 address"). vm_compute. reflexivity.
  - reflexivity.
  - exists u. split; assumption.
Defined.

Lemma shown_buttons_are_in_step_witness :
  db_after 4 !! 7 = Some (record_after 4)
  /\ 1 <= 4 <= 6
  /\ current_step (record_after 4) = 4
  /\ exists kb, show_step 4 = Ok (StepScreen 4 true kb).
Proof.
  split; [exact db_after_4|]. split; [lia|]. split; [reflexivity|].
  destruct (shown_buttons_are_in_step (db_after 4) 7 (record_after 4) 4 (Member MEMBER) 106
              db_after_4) as (kb & Hkb & _); [lia|reflexivity|].
  now exists kb.
Defined.

Lemma completion_is_final_witness :
  db_after 7 !! 7 = Some (record_after 7)
  /\ 6 < current_step (record_after 7)
  /\ fst (handle (ButtonPress 7 (lit "verify_step_1") (Member MEMBER) 200) (db_after 7)) !! 7
     = Some (record_after 7).
Proof.
  split; [exact db_after_7|]. split; [reflexivity|].
  apply (completion_is_final (ButtonPress 7 (lit "verify_step_1") (Member MEMBER) 200)
           (db_after 7) 7 (record_after 7) db_after_7); [reflexivity|].
  cbn. discriminate.
Defined.

End CourseRun.
